(** * MaxText, layers/llama2.py: the autoregressive attention cache and the
      decoder layer, as a shallow embedding.

    Arrays are a shape together with an indexing function.  The module is
    generic in its [dtype]: the element type is a parameter with the
    operations the code uses (class [DType]), and the few laws of exact
    arithmetic the proofs need are stated apart (class [DTypeLaws]); [Z]
    is the instance the examples run on, [R] the one in which softmax and
    the square root are expressed.  The [int32] cache index is a [Z] with
    its wrap-around written out.  The flax variable collection ['cache'] is
    a record of optional variables that is passed in and returned, and a
    Python exception is an error result. *)

From Stdlib Require Import String DecimalString.
From Stdlib Require Import ZArith List Bool Arith Lia.
From Stdlib Require Import Reals Lra.
From Stdlib Require Import QArith.
Import ListNotations.

Local Open Scope Z_scope.

(* ------------------------------------------------------------------ *)
(** ** Errors *)

Inductive error : Type :=
| IndexError        (* tuple index out of range, axis out of range *)
| UnpackError       (* [a, b, c, d = shape] on a shape of another rank *)
| CacheShapeError   (* the ValueError "Autoregressive cache shape error" *)
| BroadcastError    (* incompatible shapes in an elementwise operation *)
| SqueezeError      (* squeeze of an axis whose size is not 1 *)
| MissingRngError   (* make_rng on a stream that was not supplied *)
| TypeError.        (* reduce of an empty sequence *)

Inductive result (A : Type) : Type :=
| Ok (a : A)
| Err (e : error).
Arguments Ok {A} a.
Arguments Err {A} e.

Definition bind {A B} (r : result A) (k : A -> result B) : result B :=
  match r with
  | Ok a => k a
  | Err e => Err e
  end.

Notation "x <- r ;; k" := (bind r (fun x => k))
  (at level 61, r at next level, right associativity).

Definition of_option {A} (e : error) (o : option A) : result A :=
  match o with
  | Some a => Ok a
  | None => Err e
  end.

(* ------------------------------------------------------------------ *)
(** ** Arrays *)

Record Array (A : Type) : Type := mkArray {
  shape : list nat;
  elt : list nat -> A
}.
Arguments mkArray {A} shape elt.
Arguments shape {A} a.
Arguments elt {A} a idx.

Definition in_bounds (s idx : list nat) : Prop := Forall2 lt idx s.

(** Two arrays are equal when they have the same shape and the same element
    at every index of that shape. *)
Definition array_eq {A} (x y : Array A) : Prop :=
  shape x = shape y /\
  forall idx, in_bounds (shape x) idx -> elt x idx = elt y idx.

(** All the indices of a shape, in row-major order. *)
Fixpoint indices (s : list nat) : list (list nat) :=
  match s with
  | [] => [[]]
  | n :: s' => flat_map (fun i => map (cons i) (indices s')) (seq 0 n)
  end.

Definition to_list {A} (x : Array A) : list A :=
  map (elt x) (indices (shape x)).

(** The array read as the list of its rows along the last axis. *)
Definition to_rows {A} (x : Array A) : list (list A) :=
  map (fun p => map (fun k => elt x (p ++ [k])) (seq 0 (last (shape x) 0%nat)))
      (indices (removelast (shape x))).

(* ------------------------------------------------------------------ *)
(** ** Element types *)

Class DType (A : Type) : Type := {
  zero : A;
  one : A;
  dadd : A -> A -> A;
  dmul : A -> A -> A;
  ddiv : A -> A -> A;
  gt0 : A -> bool;          (* [x > 0] *)
  truth : A -> bool;        (* the truth value of [x]: [x != 0] *)
  neg_1e10 : A;             (* the literal [-1e10] cast to the dtype *)
  sqrt_nat : nat -> A       (* [jnp.sqrt(n).astype(dtype)] *)
}.

(** What the proofs use of exact arithmetic.  A floating-point dtype has
    these laws on finite values, up to the sign of zero. *)
Class DTypeLaws (A : Type) {D : DType A} : Prop := {
  dadd_0_l : forall x : A, dadd zero x = x;
  dadd_0_r : forall x : A, dadd x zero = x;
  dmul_1_r : forall x : A, dmul x one = x;
  dmul_0_r : forall x : A, dmul x zero = zero;
  gt0_zero : gt0 zero = false;
  gt0_one : gt0 one = true
}.

#[export] Instance Z_dtype : DType Z := {|
  zero := 0;
  one := 1;
  dadd := Z.add;
  dmul := Z.mul;
  ddiv := Z.div;
  gt0 := fun x => 0 <? x;
  truth := fun x => negb (x =? 0);
  neg_1e10 := -10000000000;
  sqrt_nat := fun n => Z.sqrt (Z.of_nat n)
|}.

Definition Rgt0 (x : R) : bool := if Rlt_dec 0 x then true else false.
Definition Rtruth (x : R) : bool := if Req_dec_T x 0 then false else true.

#[export] Instance R_dtype : DType R := {|
  zero := 0%R;
  one := 1%R;
  dadd := Rplus;
  dmul := Rmult;
  ddiv := Rdiv;
  gt0 := Rgt0;
  truth := Rtruth;
  neg_1e10 := (-10000000000)%R;
  sqrt_nat := fun n => sqrt (INR n)
|}.

Definition of_list4 {A} (default : A) (s : list nat) (l : list A) : Array A :=
  mkArray s (fun idx =>
    match s, idx with
    | [_; n1; n2; n3], [i0; i1; i2; i3] =>
        nth (((i0 * n1 + i1) * n2 + i2) * n3 + i3)%nat l default
    | _, _ => default
    end).

(** [jnp.zeros(s, dtype)] and [jnp.full(s, v)] *)
Definition zeros {A} {D : DType A} (s : list nat) : Array A :=
  mkArray s (fun _ => zero).
Definition full {A} (s : list nat) (v : A) : Array A := mkArray s (fun _ => v).

(** *** Axes *)

(** A possibly negative Python index into a sequence of length [n]. *)
Definition norm_axis (n : nat) (a : Z) : option nat :=
  if (0 <=? a) && (a <? Z.of_nat n) then Some (Z.to_nat a)
  else if (- Z.of_nat n <=? a) && (a <? 0) then Some (Z.to_nat (Z.of_nat n + a))
  else None.

Definition py_nth {A} (l : list A) (a : Z) : option A :=
  match norm_axis (length l) a with
  | Some i => nth_error l i
  | None => None
  end.

(** [x[:-3]] *)
Definition py_drop_last {A} (k : nat) (l : list A) : list A :=
  firstn (length l - k) l.

Definition remove_at {A} (i : nat) (l : list A) : list A :=
  firstn i l ++ skipn (S i) l.

Definition insert_at {A} (i : nat) (x : A) (l : list A) : list A :=
  firstn i l ++ x :: skipn i l.

Definition move {A} (src dst : nat) (l : list A) : list A :=
  match nth_error l src with
  | Some x => insert_at dst x (remove_at src l)
  | None => l
  end.

(** [jnp.moveaxis(x, source, destination)] *)
Definition moveaxis {A} (x : Array A) (source destination : Z) : result (Array A) :=
  match norm_axis (length (shape x)) source,
        norm_axis (length (shape x)) destination with
  | Some s, Some d =>
      Ok (mkArray (move s d (shape x)) (fun idx => elt x (move d s idx)))
  | _, _ => Err IndexError
  end.

(** *** Broadcasting elementwise operations *)

Definition bdim (a b : nat) : option nat :=
  if (a =? b)%nat then Some a
  else if (a =? 1)%nat then Some b
  else if (b =? 1)%nat then Some a
  else None.

(** Shapes are aligned on their last axis: both are given reversed. *)
Fixpoint broadcast_rev (s1 s2 : list nat) : option (list nat) :=
  match s1, s2 with
  | [], s => Some s
  | s, [] => Some s
  | a :: s1', b :: s2' =>
      match bdim a b, broadcast_rev s1' s2' with
      | Some c, Some r => Some (c :: r)
      | _, _ => None
      end
  end.

Definition broadcast_shapes (s1 s2 : list nat) : option (list nat) :=
  option_map (@rev nat) (broadcast_rev (rev s1) (rev s2)).

(** The index into an operand of shape [s] that the index [idx] of the
    broadcast result reads: the last [length s] axes, an axis of size 1
    being read at 0. *)
Fixpoint clamp_ones (s idx : list nat) : list nat :=
  match s, idx with
  | d :: s', i :: idx' => (if (d =? 1)%nat then 0%nat else i) :: clamp_ones s' idx'
  | _, _ => []
  end.

Definition bcast_index (s idx : list nat) : list nat :=
  clamp_ones s (skipn (length idx - length s) idx).

Definition binop {A B C} (f : A -> B -> C) (x : Array A) (y : Array B)
  : result (Array C) :=
  match broadcast_shapes (shape x) (shape y) with
  | Some s =>
      Ok (mkArray s (fun idx =>
            f (elt x (bcast_index (shape x) idx))
              (elt y (bcast_index (shape y) idx))))
  | None => Err BroadcastError
  end.

Definition add {A} {D : DType A} : Array A -> Array A -> result (Array A) :=
  binop dadd.
Definition mul {A} {D : DType A} : Array A -> Array A -> result (Array A) :=
  binop dmul.

(** [jnp.broadcast_to(x, s)] *)
Definition broadcast_to {A} (x : Array A) (s : list nat) : result (Array A) :=
  match broadcast_shapes (shape x) s with
  | Some s' =>
      if list_eq_dec Nat.eq_dec s' s
      then Ok (mkArray s (fun idx => elt x (bcast_index (shape x) idx)))
      else Err BroadcastError
  | None => Err BroadcastError
  end.

(** [jnp.arange(n)] *)
Definition arange (n : nat) : Array Z :=
  mkArray [n] (fun idx => Z.of_nat (hd 0%nat idx)).

(** [x <= c] for a scalar [c]: a boolean array. *)
Definition le_scalar (x : Array Z) (c : Z) : Array bool :=
  mkArray (shape x) (fun idx => elt x idx <=? c).

(** [m.astype(dtype)] of a boolean array *)
Definition of_bool {A} {D : DType A} (b : bool) : A := if b then one else zero.

Definition astype_bool {A} {D : DType A} (m : Array bool) : Array A :=
  mkArray (shape m) (fun idx => of_bool (elt m idx)).

(** [jax.nn.one_hot(i, n, dtype)] for a scalar [i]: the comparison of [i]
    with [arange(n)], cast to the dtype; an index outside [0, n) gives the
    zero vector. *)
Definition one_hot {A} {D : DType A} (i : Z) (n : nat) : Array A :=
  mkArray [n] (fun idx => of_bool (elt (arange n) idx =? i)).

(** [lax.select(pred, a, b)] with [a] and [b] of the shape of [pred]. *)
Definition select {A} (pred : Array bool) (a b : Array A) : Array A :=
  mkArray (shape pred) (fun idx => if elt pred idx then elt a idx else elt b idx).

(** [x > 0] *)
Definition gt_zero {A} {D : DType A} (x : Array A) : Array bool :=
  mkArray (shape x) (fun idx => gt0 (elt x idx)).

(** [jnp.squeeze(x, axis=0)] *)
Definition squeeze0 {A} (x : Array A) : result (Array A) :=
  match shape x with
  | 1%nat :: s => Ok (mkArray s (fun idx => elt x (0%nat :: idx)))
  | _ => Err SqueezeError
  end.

(** [jnp.reshape(z, (-1))] of a scalar *)
Definition reshape_scalar {A} (z : A) : Array A := mkArray [1%nat] (fun _ => z).

(* ------------------------------------------------------------------ *)
(** ** int32 *)

Definition int32_min : Z := - 2 ^ 31.
Definition int32_max : Z := 2 ^ 31 - 1.

Definition int32_wrap (z : Z) : Z := (z + 2 ^ 31) mod 2 ^ 32 - 2 ^ 31.

Definition int32_add (a b : Z) : Z := int32_wrap (a + b).

(* ------------------------------------------------------------------ *)
(** ** The helpers of [layers.models] used by the attention module *)

(** Modelled from the spec: [models.combine_masks] is not among the
    sources.  The masks that are present are combined into one validity
    mask, a position being valid when every mask allows it, and the result
    is cast to the dtype.  Here the second mask is always present (the
    boolean causal mask). *)
Definition combine_masks {A} {D : DType A}
    (mask : option (Array A)) (other : Array bool) : result (Array A) :=
  match mask with
  | None => Ok (astype_bool other)
  | Some m => binop (fun a b => of_bool (truth a && b)) m other
  end.

(** Modelled from the spec: [models.combine_biases] is not among the
    sources.  The biases that are present are added. *)
Definition combine_biases {A} {D : DType A}
    (attention_bias : option (Array A)) (bias : Array A) : result (Array A) :=
  match attention_bias with
  | None => Ok bias
  | Some b => add b bias
  end.

Definition replace_at {A} (i : nat) (x : A) (l : list A) : list A :=
  firstn i l ++ x :: skipn (S i) l.

(** Modelled from the spec: [models.dynamic_vector_slice_in_dim] is not
    among the sources.  For every start index [start_indices[n]] it takes
    the slice of [slice_size] positions of [operand] along [axis] starting
    there, and stacks the slices on a new leading axis; with one start
    index [c], size 1 and axis -2 this is [operand[..., c:c+1, :]] with a
    leading axis of size 1.  The spec says nothing of a start outside the
    operand, and neither does this definition. *)
Definition dynamic_vector_slice_in_dim {A}
    (operand : Array A) (start_indices : Array Z) (slice_size : nat) (axis : Z)
  : result (Array A) :=
  match norm_axis (length (shape operand)) axis, shape start_indices with
  | Some ax, [n] =>
      Ok (mkArray (n :: replace_at ax slice_size (shape operand))
            (fun idx =>
               let start := Z.to_nat (elt start_indices [hd 0%nat idx]) in
               let idx' := tl idx in
               elt operand (replace_at ax (start + nth ax idx' 0)%nat idx')))
  | _, _ => Err IndexError
  end.

(** Partitioning and rematerialisation hints: the identity on one device. *)
Definition with_logical_constraint {A} (x : Array A) (axes : list string)
  : Array A := x.
Definition checkpoint_name {A} (x : Array A) (name : string) : Array A := x.

(** The rng streams given to the call, by name. *)
Definition Rngs : Type := string -> option Z.

(** [self.make_rng(name)] *)
Definition make_rng (rngs : Rngs) (name : string) : result Z :=
  of_option MissingRngError (rngs name).

(** An initializer is called with a key and a shape. *)
Record InitArgs : Type := mkInitArgs { init_key : Z; init_shape : list nat }.
Definition Initializer (A : Type) : Type := InitArgs -> Array A.

(** The collaborators imported from [layers.models] and [flax.linen], whose
    code is outside the module: they are taken as they come. *)
Record Models (A : Type) : Type := mkModels {
  (* DenseGeneral(features, axis, kernel_init, name)(inputs) *)
  DenseGeneral : list nat -> list Z -> Initializer A -> string -> Array A -> Array A;
  (* LLaMARotaryEmbedding(embedding_dims, name)(inputs, position) *)
  LLaMARotaryEmbedding : nat -> string -> Array A -> option (Array Z) -> Array A;
  (* self.apply_attention(query, key, value, attention_type,
       decoder_segment_ids, attention_bias, dropout_rng, deterministic, decode) *)
  apply_attention : Array A -> Array A -> Array A -> string -> option (Array Z) ->
                    option (Array A) -> option Z -> bool -> bool -> Array A;
  (* RMSNorm(name)(x), LayerNorm(name)(x) *)
  RMSNorm : string -> Array A -> Array A;
  LayerNorm : string -> Array A -> Array A;
  (* nn.Dropout(rate, broadcast_dims)(x, deterministic), with the rng
     streams it draws from *)
  Dropout : Q -> Array A -> bool -> Rngs -> Array A;
  (* _convert_to_activation_function(act_fn)(x) *)
  activation : string -> Array A -> Array A;
  (* nd_dense_init(scale, mode, distribution) *)
  nd_dense_init : Q -> string -> string -> Initializer A;
  (* the default kernel_init of the attention base class *)
  default_kernel_init : Initializer A
}.
Arguments DenseGeneral {A} m features axis kernel_init name x.
Arguments LLaMARotaryEmbedding {A} m embedding_dims name x position.
Arguments apply_attention {A} m query key value attention_type
  decoder_segment_ids attention_bias dropout_rng deterministic decode.
Arguments RMSNorm {A} m name x.
Arguments LayerNorm {A} m name x.
Arguments Dropout {A} m rate x deterministic rngs.
Arguments activation {A} m act_fn x.
Arguments nd_dense_init {A} m scale mode distribution args.
Arguments default_kernel_init {A} m args.

(* ------------------------------------------------------------------ *)
(** ** Module state: the ['cache'] collection and the rng streams *)

Record CacheVars (A : Type) : Type := mkCache {
  cached_key : option (Array A);
  cached_value : option (Array A);
  cache_index : option Z
}.
Arguments mkCache {A} cached_key cached_value cache_index.
Arguments cached_key {A} c.
Arguments cached_value {A} c.
Arguments cache_index {A} c.

Definition no_cache {A} : CacheVars A := mkCache None None None.

(** [self.has_variable('cache', name)] *)
Definition has_variable {T} (v : option T) : bool :=
  match v with
  | Some _ => true
  | None => false
  end.

(** [self.variable('cache', name, init_fn, args).value]: the variable is
    created by [init_fn] only when it does not exist yet. *)
Definition variable {T} (existing : option T) (init : T) : T :=
  match existing with
  | Some v => v
  | None => init
  end.


(* ------------------------------------------------------------------ *)
(** ** MultiHeadDotProductAttention *)

(** The attributes of the module (its dtype is the element type). *)
Record Attention (A : Type) : Type := mkAttention {
  num_heads : nat;
  head_dim : nat;
  dropout_rate : Q;
  kernel_init : Initializer A
}.
Arguments mkAttention {A} num_heads head_dim dropout_rate kernel_init.
Arguments num_heads {A} a.
Arguments head_dim {A} a.
Arguments dropout_rate {A} a.
Arguments kernel_init {A} a.

Section MultiHeadDotProductAttention.

Context {A : Type} {D : DType A}.

(** [x[:-3] + tuple(x[i] for i in [-2, -1, -3])] *)
Definition swap_dims (x : list nat) : result (list nat) :=
  a <- of_option IndexError (py_nth x (-2)) ;;
  b <- of_option IndexError (py_nth x (-1)) ;;
  c <- of_option IndexError (py_nth x (-3)) ;;
  Ok (py_drop_last 3 x ++ [a; b; c]).

(** [depth_scaling = jnp.sqrt(self.head_dim).astype(self.dtype)] and
    [query_init(args) = self.kernel_init(args) / depth_scaling] *)
Definition depth_scaling (self : Attention A) : A := sqrt_nat (head_dim self).

Definition query_init (self : Attention A) : Initializer A :=
  fun args =>
    let k := kernel_init self args in
    mkArray (shape k) (fun idx => ddiv (elt k idx) (depth_scaling self)).

(** What the [decode] branch hands to the rest of the call. *)
Record Decoded : Type := mkDecoded {
  d_key : Array A;
  d_value : Array A;
  d_mask : option (Array A);
  d_bias : option (Array A)
}.

(** The bias row of a decode step: [bias] is the full attention matrix,
    of which the step takes the row [cur_index]. *)
Definition step_bias (bias : option (Array A)) (cur_index : Z)
  : result (option (Array A)) :=
  match bias with
  | Some b =>
      squeezed <- squeeze0 b ;;
      row <- dynamic_vector_slice_in_dim
               squeezed (reshape_scalar cur_index) 1 (-2) ;;
      Ok (Some row)
  | None => Ok None
  end.

(** The branch [if decode:] of [__call__]: the cache variables are
    created when absent; when [cached_key] was there already, the query
    shape is checked against the cache, the key and value of the step are
    scattered into the cache at [cache_index] by a one-hot product, the
    index is advanced, and the causal mask and the bias row of the step
    are produced. *)
Definition autoregressive_cache (vars : CacheVars A)
    (query key value : Array A) (mask bias : option (Array A))
  : result (CacheVars A * Decoded) :=
  let is_initialized := has_variable (cached_key vars) in
  key_dims <- swap_dims (shape key) ;;
  let cached_key_v := variable (cached_key vars) (zeros key_dims) in
  value_dims <- swap_dims (shape value) ;;
  let cached_value_v := variable (cached_value vars) (zeros value_dims) in
  let cache_index_v := variable (cache_index vars) 0 in
  if is_initialized then
    match shape cached_key_v with
    | [batch; n_heads; h_dim; length] =>
        let expected_shape := [batch; 1%nat; n_heads; h_dim] in
        if list_eq_dec Nat.eq_dec expected_shape (shape query) then
          let cur_index := cache_index_v in
          let one_hot_indices := one_hot cur_index length in
          one_token_key <- moveaxis key (-3) (-1) ;;
          one_token_value <- moveaxis value (-3) (-1) ;;
          key_update <- mul one_token_key one_hot_indices ;;
          key1 <- add cached_key_v key_update ;;
          value_update <- mul one_token_value one_hot_indices ;;
          value1 <- add cached_value_v value_update ;;
          let vars1 :=
            mkCache (Some key1) (Some value1)
                    (Some (int32_add cache_index_v 1)) in
          key2 <- moveaxis key1 (-1) (-3) ;;
          value2 <- moveaxis value1 (-1) (-3) ;;
          causal <- broadcast_to (le_scalar (arange length) cur_index)
                                 [batch; 1%nat; 1%nat; length] ;;
          mask1 <- combine_masks mask causal ;;
          bias1 <- step_bias bias cur_index ;;
          Ok (vars1, mkDecoded key2 value2 (Some mask1) bias1)
        else Err CacheShapeError
    | _ => Err UnpackError
    end
  else
    Ok (mkCache (Some cached_key_v) (Some cached_value_v) (Some cache_index_v),
        mkDecoded key value mask bias).

(** The conversion of the validity mask into an additive bias, and the
    addition of the supplied bias. *)
Definition mask_to_bias (mask : option (Array A)) : option (Array A) :=
  match mask with
  | Some m => Some (select (gt_zero m) (full (shape m) zero) (full (shape m) neg_1e10))
  | None => None
  end.

Definition compose_bias (mask bias : option (Array A)) : result (option (Array A)) :=
  let attention_bias := mask_to_bias mask in
  match bias with
  | Some b => r <- combine_biases attention_bias b ;; Ok (Some r)
  | None => Ok attention_bias
  end.

(** [dropout_rng]: drawn only when dropout is active. *)
Definition draw_dropout_rng (self : Attention A) (rngs : Rngs) (deterministic : bool)
  : result (option Z) :=
  if negb deterministic && negb (Qle_bool (dropout_rate self) 0)
  then k <- make_rng rngs "dropout" ;; Ok (Some k)
  else Ok None.

Variable models : Models A.

Definition activation_axes : list string :=
  ["activation_batch"; "activation_length"; "activation_heads"; "activation_kv"]%string.

(** The head of [__call__]: the projections of the inputs into query, key
    and value, and the rotary embedding of query and key. *)
Definition project_qkv (self : Attention A) (inputs_q inputs_kv : Array A)
    (inputs_positions : option (Array Z)) : Array A * Array A * Array A :=
  let projection := DenseGeneral models [num_heads self; head_dim self] [-1] in
  let query := projection (query_init self) "query"%string inputs_q in
  let key := projection (kernel_init self) "key"%string inputs_kv in
  let value := projection (kernel_init self) "value"%string inputs_kv in
  let query := LLaMARotaryEmbedding models (head_dim self) "query_rotary" query inputs_positions in
  let key := LLaMARotaryEmbedding models (head_dim self) "key_rotary" key inputs_positions in
  let query := checkpoint_name (with_logical_constraint query activation_axes) "query_proj" in
  let key := checkpoint_name (with_logical_constraint key activation_axes) "key_proj" in
  let value := checkpoint_name (with_logical_constraint value activation_axes) "value_proj" in
  (query, key, value).

(** [MultiHeadDotProductAttention.__call__]: the result and the ['cache']
    collection after the call. *)
Definition attention_call (self : Attention A) (vars : CacheVars A) (rngs : Rngs)
    (inputs_q inputs_kv : Array A) (attention_type : string)
    (decoder_segment_ids inputs_positions : option (Array Z))
    (mask bias : option (Array A)) (decode deterministic : bool)
  : result (Array A * CacheVars A) :=
  let '(query, key, value) := project_qkv self inputs_q inputs_kv inputs_positions in
  st <- (if decode
         then autoregressive_cache vars query key value mask bias
         else Ok (vars, mkDecoded key value mask bias)) ;;
  let '(vars1, dec) := st in
  attention_bias <- compose_bias (d_mask dec) (d_bias dec) ;;
  dropout_rng <- draw_dropout_rng self rngs deterministic ;;
  let x := apply_attention models query (d_key dec) (d_value dec) attention_type
             decoder_segment_ids attention_bias dropout_rng deterministic decode in
  let x := with_logical_constraint x activation_axes in
  features <- of_option IndexError (py_nth (shape inputs_q) (-1)) ;;
  let out := DenseGeneral models [features] [-2; -1] (kernel_init self) "out"%string x in
  Ok (out, vars1).

End MultiHeadDotProductAttention.

(* ------------------------------------------------------------------ *)
(** ** Decoding sessions *)

(** The projected query, key and value of one decode call, with the mask
    the caller passes. *)
Record Step (A : Type) : Type := mkStep {
  step_query : Array A;
  step_key : Array A;
  step_value : Array A;
  step_mask : option (Array A)
}.
Arguments mkStep {A} step_query step_key step_value step_mask.
Arguments step_query {A} s.
Arguments step_key {A} s.
Arguments step_value {A} s.
Arguments step_mask {A} s.

(** The decode calls of a session, issued in order on the cache that the
    caller threads through them, without a bias (the decoder layer passes
    [bias = None]). *)
Fixpoint decode_calls {A} {D : DType A} (vars : CacheVars A) (steps : list (Step A))
  : result (CacheVars A) :=
  match steps with
  | [] => Ok vars
  | s :: rest =>
      r <- autoregressive_cache vars (step_query s) (step_key s) (step_value s)
             (step_mask s) None ;;
      decode_calls (fst r) rest
  end.

(** A mask of a decode step, of shape [(batch, num_heads, q_length,
    kv_length)] with one query position and the key positions of the
    cache; its batch and heads axes may have size 1. *)
Definition mask_fits {A} (b len : nat) (mask : option (Array A)) : Prop :=
  match mask with
  | Some m => exists mb mh, shape m = [mb; mh; 1%nat; len] /\ (mb = 1%nat \/ mb = b)
  | None => True
  end.

(** A single-token step for a cache of shape [(b, h, d, len)]: query, key
    and value have shape [(b, 1, h, d)]. *)
Definition single_token {A} (b h d len : nat) (s : Step A) : Prop :=
  shape (step_query s) = [b; 1%nat; h; d] /\
  shape (step_key s) = [b; 1%nat; h; d] /\
  shape (step_value s) = [b; 1%nat; h; d] /\
  mask_fits b len (step_mask s).

(** [jnp.concatenate(xs, axis=1)] of arrays of rank 4. *)
Fixpoint concat_elt {A} {D : DType A} (xs : list (Array A)) (i t j k : nat) : A :=
  match xs with
  | [] => zero
  | x :: rest =>
      let l := nth 1 (shape x) 0%nat in
      if (t <? l)%nat then elt x [i; t; j; k] else concat_elt rest i (t - l) j k
  end.

Definition concatenate1 {A} {D : DType A} (b h d : nat) (xs : list (Array A)) : Array A :=
  mkArray [b; list_sum (map (fun x => nth 1 (shape x) 0%nat) xs); h; d]
          (fun idx => concat_elt xs (nth 0 idx 0%nat) (nth 1 idx 0%nat)
                                    (nth 2 idx 0%nat) (nth 3 idx 0%nat)).

(** The cache has been allocated with shape [(b, h, d, len)] and its index
    is [ci]. *)
Definition allocated {A} (vars : CacheVars A) (b h d len : nat) (ci : Z) : Prop :=
  exists ck cv,
    cached_key vars = Some ck /\ cached_value vars = Some cv /\
    cache_index vars = Some ci /\
    shape ck = [b; h; d; len] /\ shape cv = [b; h; d; len].

Definition key_elt {A} {D : DType A} (vars : CacheVars A) (idx : list nat) : A :=
  match cached_key vars with
  | Some ck => elt ck idx
  | None => zero
  end.

Definition value_elt {A} {D : DType A} (vars : CacheVars A) (idx : list nat) : A :=
  match cached_value vars with
  | Some cv => elt cv idx
  | None => zero
  end.

(* ------------------------------------------------------------------ *)
(** ** Attention weights *)

Definition Rsum (l : list R) : R := fold_right Rplus 0%R l.

(** Modelled from the spec: [apply_attention] is a method of the base
    class in [layers.models] and is not among the sources.  The spec has
    logits = query . key^T + bias, and the weights are the softmax of the
    logits over the key axis.  Query and key are in the natural
    [(batch, length, heads, head_dim)] layout, the bias broadcasts to
    [(batch, heads, q_length, kv_length)]. *)
Definition logit (query key : Array R) (bias : option (Array R))
    (b h q k : nat) : R :=
  (Rsum (map (fun e => elt query [b; q; h; e] * elt key [b; k; h; e])
             (seq 0 (nth 3 (shape query) 0%nat)))
   + match bias with
     | Some bs => elt bs (bcast_index (shape bs) [b; h; q; k])
     | None => 0
     end)%R.

Definition attention_weight (query key : Array R) (bias : option (Array R))
    (b h q k : nat) : R :=
  (exp (logit query key bias b h q k)
   / Rsum (map (fun k' => exp (logit query key bias b h q k'))
               (seq 0 (nth 1 (shape key) 0%nat))))%R.

(* ------------------------------------------------------------------ *)
(** ** MlpBlock *)

Record MlpBlock (A : Type) : Type := mkMlpBlock {
  intermediate_dim : nat;
  activations : list string;
  mlp_kernel_init : Initializer A;
  intermediate_dropout_rate : Q
}.
Arguments mkMlpBlock {A} intermediate_dim activations mlp_kernel_init
  intermediate_dropout_rate.
Arguments intermediate_dim {A} m.
Arguments activations {A} m.
Arguments mlp_kernel_init {A} m.
Arguments intermediate_dropout_rate {A} m.

Definition string_of_nat (n : nat) : string :=
  NilZero.string_of_uint (Nat.to_uint n).

(** [functools.reduce(operator.mul, xs)] *)
Definition reduce_mul {A} {D : DType A} (xs : list (Array A)) : result (Array A) :=
  match xs with
  | [] => Err TypeError
  | x :: rest => fold_left (fun acc y => a <- acc ;; mul a y) rest (Ok x)
  end.

Definition mlp_axes : list string :=
  ["activation_batch"; "activation_length"; "activation_mlp"]%string.

(** [MlpBlock.__call__(inputs, decode, deterministic)] *)
Definition mlp_call {A} {D : DType A} (models : Models A) (self : MlpBlock A)
    (rngs : Rngs) (inputs : Array A) (decode deterministic : bool)
  : result (Array A) :=
  let acts :=
    map (fun '(idx, act_fn) =>
           let dense_name :=
             if (length (activations self) =? 1)%nat then "wi"%string
             else ("wi_" ++ string_of_nat idx)%string in
           let x := DenseGeneral models [intermediate_dim self] [-1]
                      (mlp_kernel_init self) dense_name inputs in
           activation models act_fn x)
        (combine (seq 0 (length (activations self))) (activations self)) in
  x <- reduce_mul acts ;;
  let x := Dropout models (intermediate_dropout_rate self) x deterministic rngs in
  let x := with_logical_constraint x mlp_axes in
  let up_proj_x := DenseGeneral models [intermediate_dim self] [-1]
                     (mlp_kernel_init self) "ffn_layer1"%string inputs in
  x <- mul x up_proj_x ;;
  let x := Dropout models (intermediate_dropout_rate self) x deterministic rngs in
  let x := with_logical_constraint x mlp_axes in
  features <- of_option IndexError (py_nth (shape inputs) (-1)) ;;
  Ok (DenseGeneral models [features] [-1] (mlp_kernel_init self) "wo"%string x).

(* ------------------------------------------------------------------ *)
(** ** DecoderLayer *)

Record Config : Type := mkConfig {
  cfg_num_heads : nat;
  cfg_head_dim : nat;
  cfg_dropout_rate : Q;
  cfg_mlp_dim : nat;
  cfg_mlp_activations : list string;
  cfg_attention : string;
  cfg_scan_layers : bool
}.

Definition embed_axes : list string :=
  ["activation_batch"; "activation_length"; "activation_embed"]%string.

(** The layer returns [(layer_output, None)] under [scan_layers] and
    [layer_output] otherwise. *)
Inductive LayerOutput (A : Type) : Type :=
| Scanned (layer_output : Array A)
| Plain (layer_output : Array A).
Arguments Scanned {A} layer_output.
Arguments Plain {A} layer_output.

Definition layer_output_of {A} (o : LayerOutput A) : Array A :=
  match o with
  | Scanned x => x
  | Plain x => x
  end.

(** [DecoderLayer.__call__].  The metrics that the layer sows into the
    ['intermediates'] collection are a side channel and are left out. *)
Definition decoder_layer_call {A} {D : DType A} (models : Models A) (cfg : Config)
    (vars : CacheVars A) (rngs : Rngs) (inputs : Array A)
    (decoder_segment_ids decoder_positions : option (Array Z))
    (decoder_mask : option (Array A)) (deterministic decode : bool)
    (max_decode_length : nat)
  : result (LayerOutput A * CacheVars A) :=
  let inputs := with_logical_constraint inputs embed_axes in
  let residual := inputs in
  let lnx := RMSNorm models "pre_self_attention_norm" inputs in
  let lnx := with_logical_constraint lnx embed_axes in
  let self_attention :=
    mkAttention (cfg_num_heads cfg) (cfg_head_dim cfg) (cfg_dropout_rate cfg)
                (default_kernel_init models) in
  r <- attention_call models self_attention vars rngs lnx lnx (cfg_attention cfg)
         decoder_segment_ids decoder_positions decoder_mask None
         decode deterministic ;;
  let '(attention_lnx, vars1) := r in
  let attention_lnx := with_logical_constraint attention_lnx embed_axes in
  hidden_states <- add residual attention_lnx ;;
  let residual := hidden_states in
  let hidden_states :=
    LayerNorm models "post_self_attention_layer_norm" hidden_states in
  let hidden_states := with_logical_constraint lnx embed_axes in
  let mlp :=
    mkMlpBlock (cfg_mlp_dim cfg) (cfg_mlp_activations cfg)
               (nd_dense_init models 1 "fan_in" "truncated_normal")
               (cfg_dropout_rate cfg) in
  mlp_lnx <- mlp_call models mlp rngs hidden_states false deterministic ;;
  let mlp_lnx := with_logical_constraint mlp_lnx embed_axes in
  layer_output <- add mlp_lnx residual ;;
  let layer_output := Dropout models (cfg_dropout_rate cfg) layer_output deterministic rngs in
  let layer_output := with_logical_constraint layer_output embed_axes in
  if cfg_scan_layers cfg then Ok (Scanned layer_output, vars1)
  else if cfg_scan_layers cfg then Ok (Scanned layer_output, vars1)
  else Ok (Plain layer_output, vars1).

(** The layer as the specification words it: residual add, post-attention
    normalization, and the feed-forward block on the normalized tensor. *)
Definition decoder_layer_spec {A} {D : DType A} (models : Models A) (cfg : Config)
    (vars : CacheVars A) (rngs : Rngs) (inputs : Array A)
    (decoder_segment_ids decoder_positions : option (Array Z))
    (decoder_mask : option (Array A)) (deterministic decode : bool)
    (max_decode_length : nat)
  : result (LayerOutput A * CacheVars A) :=
  let residual := inputs in
  let lnx := RMSNorm models "pre_self_attention_norm" inputs in
  let self_attention :=
    mkAttention (cfg_num_heads cfg) (cfg_head_dim cfg) (cfg_dropout_rate cfg)
                (default_kernel_init models) in
  r <- attention_call models self_attention vars rngs lnx lnx (cfg_attention cfg)
         decoder_segment_ids decoder_positions decoder_mask None
         decode deterministic ;;
  let '(attention_lnx, vars1) := r in
  hidden_states <- add residual attention_lnx ;;
  let residual := hidden_states in
  let normalized :=
    LayerNorm models "post_self_attention_layer_norm" hidden_states in
  let mlp :=
    mkMlpBlock (cfg_mlp_dim cfg) (cfg_mlp_activations cfg)
               (nd_dense_init models 1 "fan_in" "truncated_normal")
               (cfg_dropout_rate cfg) in
  mlp_lnx <- mlp_call models mlp rngs normalized false deterministic ;;
  layer_output <- add mlp_lnx residual ;;
  let layer_output := Dropout models (cfg_dropout_rate cfg) layer_output deterministic rngs in
  if cfg_scan_layers cfg then Ok (Scanned layer_output, vars1)
  else Ok (Plain layer_output, vars1).


(** The invariant of the specification on the cache index:
    [0 <= cache_index < max_length]. *)
Definition index_in_range {A} (vars : CacheVars A) : bool :=
  match cached_key vars, cache_index vars with
  | Some ck, Some ci =>
      match shape ck with
      | [_; _; _; max_length] => (0 <=? ci) && (ci <? Z.of_nat max_length)
      | _ => false
      end
  | _, _ => false
  end.

(* ------------------------------------------------------------------ *)
(** ** Concrete inputs *)

Module Scenario.

(** batch = 1, heads = 1, head_dim = 2, max_length = 4: the call that
    allocates the cache sees the four positions, the decode calls one
    position each. *)
Definition prompt : Array Z := of_list4 0 [1; 4; 1; 2]%nat [0; 0; 0; 0; 0; 0; 0; 0].

Definition token (x y : Z) : Step Z :=
  let a := of_list4 0 [1; 1; 1; 2]%nat [x; y] in
  mkStep a a a None.

Definition steps : list (Step Z) := [token 1 0; token 0 1; token 1 1; token 0 0].

(** A cache of capacity 1. *)
Definition prompt1 : Array Z := of_list4 0 [1; 1; 1; 1]%nat [0].
Definition token1 : Step Z :=
  let a := of_list4 0 [1; 1; 1; 1]%nat [7] in
  mkStep a a a None.

(** A cache of capacity 2 that the decode calls [token 1 0] and
    [token 0 1] have filled. *)
Definition full_cache : CacheVars Z :=
  mkCache (Some (of_list4 0 [1; 1; 2; 2]%nat [1; 0; 0; 1]))
          (Some (of_list4 0 [1; 1; 2; 2]%nat [1; 0; 0; 1]))
          (Some 2).

(** The cache of capacity 2 after the decode call [token 1 0], and a bias
    of shape (1, 1, 2, 2) for it. *)
Definition one_step_cache : CacheVars Z :=
  mkCache (Some (of_list4 0 [1; 1; 2; 2]%nat [1; 0; 0; 0]))
          (Some (of_list4 0 [1; 1; 2; 2]%nat [1; 0; 0; 0]))
          (Some 1).

Definition bias : Array Z := of_list4 0 [1; 1; 2; 2]%nat [10; 11; 12; 13].

End Scenario.

Module MaskedStep.

(** A decode step at position 0 on a fresh cache of capacity 2 (batch,
    heads and head_dim 1), whose caller masks every key position. *)
Definition fresh : CacheVars R :=
  mkCache (Some (zeros [1; 1; 1; 2]%nat)) (Some (zeros [1; 1; 1; 2]%nat)) (Some 0).

Definition query : Array R := of_list4 0%R [1; 1; 1; 1]%nat [0%R].
Definition key : Array R := of_list4 0%R [1; 1; 1; 1]%nat [1%R].
Definition value : Array R := of_list4 0%R [1; 1; 1; 1]%nat [1%R].
Definition mask : Array R := of_list4 0%R [1; 1; 1; 2]%nat [0%R; 0%R].

End MaskedStep.

(* ------------------------------------------------------------------ *)
(** ** What is assumed of the collaborators *)

(** The shapes that the collaborators return: a dense layer replaces the
    axes it contracts by its features, the rotary embedding keeps the shape
    of its input, and the attention returns the shape of the query. *)
Record ShapeContracts {A : Type} (m : Models A) : Prop := mkShapeContracts {
  dense_shape : forall features axis init name x,
    shape (DenseGeneral m features axis init name x)
    = py_drop_last (length axis) (shape x) ++ features;
  rotary_shape : forall dims name x position,
    shape (LLaMARotaryEmbedding m dims name x position) = shape x;
  attention_shape : forall q k v ty seg bias rng det dec,
    shape (apply_attention m q k v ty seg bias rng det dec) = shape q
}.

(** The collaborators with another post-attention normalization. *)
Definition with_LayerNorm {A} (m : Models A) (ln : string -> Array A -> Array A)
  : Models A :=
  mkModels A (DenseGeneral m) (LLaMARotaryEmbedding m) (apply_attention m)
    (RMSNorm m) ln (Dropout m) (activation m) (nd_dense_init m)
    (default_kernel_init m).

(** Stand-ins for the collaborators, on integers, to run the layers on
    concrete inputs: a dense layer whose features all read the first of the
    contracted inputs, no rotation, an attention that gives every query
    the value of the first key position, normalizations that add 1 and
    that double, no dropout and a linear activation. *)
Module Toy.

Definition dense (features : list nat) (axis : list Z) (init : Initializer Z)
    (name : string) (x : Array Z) : Array Z :=
  let kept := (length (shape x) - length axis)%nat in
  mkArray (py_drop_last (length axis) (shape x) ++ features)
          (fun idx => elt x (firstn kept idx ++ repeat 0%nat (length axis))).

Definition rotary (dims : nat) (name : string) (x : Array Z)
    (position : option (Array Z)) : Array Z := x.

Definition attention (q k v : Array Z) (ty : string) (seg : option (Array Z))
    (bias : option (Array Z)) (rng : option Z) (det dec : bool) : Array Z :=
  mkArray (shape q) (fun idx => elt v (replace_at 1 0%nat idx)).

Definition rms_norm (name : string) (x : Array Z) : Array Z :=
  mkArray (shape x) (fun idx => elt x idx + 1).

Definition layer_norm (name : string) (x : Array Z) : Array Z :=
  mkArray (shape x) (fun idx => 2 * elt x idx).

Definition dropout (rate : Q) (x : Array Z) (det : bool) (rngs : Rngs) : Array Z := x.

Definition act (name : string) (x : Array Z) : Array Z := x.

Definition init : Initializer Z := fun args => zeros (init_shape args).

Definition models : Models Z :=
  mkModels Z dense rotary attention rms_norm layer_norm dropout act
    (fun _ _ _ => init) init.

Definition cfg : Config :=
  mkConfig 1 1 0 1 ["silu"%string] "dot_product" false.

Definition no_rngs : Rngs := fun _ => None.

(** One position of one feature, of value 3. *)
Definition inputs : Array Z := mkArray [1; 1; 1]%nat (fun _ => 3).

Definition self_attention : Attention Z := mkAttention 1 1 0 init.

(** The same module with dropout at rate 1/10, and two collections of rng
    streams that share their dropout key only. *)
Definition dropping_attention : Attention Z := mkAttention 1 1 (1 # 10) init.

Definition rngs_a : Rngs :=
  fun name => if String.eqb name "dropout" then Some 7 else Some 1.
Definition rngs_b : Rngs :=
  fun name => if String.eqb name "dropout" then Some 7 else Some 2.

End Toy.

(** The results that are not the cache shape error. *)
Definition other_than_shape_error {T} (r : result T) : Prop :=
  r <> Err CacheShapeError.

Module RealInit.

(** An attention module on real elements with head_dim 4, whose kernel
    initializer fills the kernel with ones, and collaborators that are the
    identity. *)
Definition ones : Initializer R := fun args => full (init_shape args) 1%R.

Definition self : Attention R := mkAttention 1 4 0 ones.

Definition models : Models R :=
  mkModels R (fun _ _ init _ _ => init (mkInitArgs 0 [1; 1; 4]%nat))
    (fun _ _ x _ => x) (fun q _ _ _ _ _ _ _ _ => q) (fun _ x => x)
    (fun _ x => x) (fun _ x _ _ => x) (fun _ x => x) (fun _ _ _ => ones) ones.

Definition args : InitArgs := mkInitArgs 0 [1; 1; 4]%nat.

Definition x : Array R := full [1; 1; 1]%nat 1%R.

End RealInit.

Module Unbatched.

(** A prompt without a batch axis: four positions, one head of two
    dimensions. *)
Definition prompt : Array Z := mkArray [4; 1; 2]%nat (fun _ => 0).

End Unbatched.

Module Rewound.

(** The cache of capacity 2 after the decode call [token 1 0], with its
    index set back to 0 by the caller. *)
Definition cache : CacheVars Z :=
  mkCache (Some (of_list4 0 [1; 1; 2; 2]%nat [1; 0; 0; 0]))
          (Some (of_list4 0 [1; 1; 2; 2]%nat [1; 0; 0; 0]))
          (Some 0).

End Rewound.

Module ToyDecode.

(** For the stand-in module of one head of one dimension: a prompt of two
    positions, and the cache of capacity 2 that its first decode call
    allocates. *)
Definition prompt : Array Z := mkArray [1; 2; 1]%nat (fun _ => 3).

Definition cache : CacheVars Z :=
  mkCache (Some (zeros [1; 1; 1; 2]%nat)) (Some (zeros [1; 1; 1; 2]%nat)) (Some 0).

End ToyDecode.

(** The further shapes assumed of the collaborators of the layer: the
    activations, the dropout and the two normalizations keep the shape of
    their input. *)
Record LayerContracts {A : Type} (m : Models A) : Prop := mkLayerContracts {
  layer_shapes : ShapeContracts m;
  activation_shape : forall act_fn x, shape (activation m act_fn x) = shape x;
  dropout_shape : forall rate x det rngs, shape (Dropout m rate x det rngs) = shape x;
  rms_norm_shape : forall name x, shape (RMSNorm m name x) = shape x;
  layer_norm_shape : forall name x, shape (LayerNorm m name x) = shape x
}.

(** The configuration with another [scan_layers]. *)
Definition with_scan_layers (cfg : Config) (scan : bool) : Config :=
  mkConfig (cfg_num_heads cfg) (cfg_head_dim cfg) (cfg_dropout_rate cfg)
           (cfg_mlp_dim cfg) (cfg_mlp_activations cfg) (cfg_attention cfg) scan.

Module ToyMlp.

(** A feed-forward block of two gates, and one without activations. *)
Definition gated : MlpBlock Z := mkMlpBlock 1 ["silu"; "linear"]%string Toy.init 0.
Definition empty : MlpBlock Z := mkMlpBlock 1 [] Toy.init 0.

End ToyMlp.

(* ------------------------------------------------------------------ *)
(** ** train_compile.py *)

Module TrainCompile.

(** An exception: the assertion error of [validate_config] with its
    message, or whatever a collaborator raises. *)
Inductive exn : Type :=
| AssertionError (msg : string)
| Raised (what : string).

Inductive outcome (T : Type) : Type :=
| Done (x : T)
| Raise (e : exn).
Arguments Done {T} x.
Arguments Raise {T} e.

(** What the program can change: the lines it has printed and the files
    it has written. *)
Record World (Bytes : Type) : Type := mkWorld {
  stdout : list string;
  files : string -> option Bytes
}.
Arguments mkWorld {Bytes} stdout files.
Arguments stdout {Bytes} w.
Arguments files {Bytes} w.

(** The fields of the configuration that the program reads itself; the
    others travel in [rest]. *)
Record Config (Rest : Type) : Type := mkConfig {
  compile_topology : string;
  compile_topology_num_slices : Z;
  compiled_trainstep_file : string;
  mesh_axes : list string;
  rest : Rest
}.
Arguments mkConfig {Rest} compile_topology compile_topology_num_slices
  compiled_trainstep_file mesh_axes rest.
Arguments compile_topology {Rest} c.
Arguments compile_topology_num_slices {Rest} c.
Arguments compiled_trainstep_file {Rest} c.
Arguments mesh_axes {Rest} c.
Arguments rest {Rest} c.

(** [get_system_characteristics(...)] *)
Record Hardware : Type := mkHardware {
  platform : string;
  topology_name : string;
  chip_config_name : string;
  chips_per_host_bounds : list Z
}.

(** The collaborators of the program: pyconfig, hardware_map, jax,
    max_utils, maxtext_utils, layers, train and pickle.  Each may raise;
    none prints or writes a file. *)
Record Env : Type := mkEnv {
  Rest : Type;
  Devices : Type;
  DeviceMesh : Type;
  MeshT : Type;
  Model : Type;
  Schedule : Type;
  Optimizer : Type;
  Args : Type;
  Kwargs : Type;
  Annotations : Type;
  Func : Type;
  Shardings : Type;
  Argnums : Type;
  Jitted : Type;
  Lowered : Type;
  Compiled : Type;
  Serialized : Type;
  Bytes : Type;
  (* pyconfig.initialize(argv); pyconfig.config *)
  initialize : list string -> outcome (Config Rest);
  get_system_characteristics : string -> outcome Hardware;
  (* get_topology_desc(platform, topology_name, chip_config_name,
       chips_per_host_bounds, num_slices).devices *)
  get_topology_desc : string -> string -> string -> list Z -> Z -> outcome Devices;
  create_device_mesh : Config Rest -> Devices -> outcome DeviceMesh;
  Mesh : DeviceMesh -> list string -> outcome MeshT;
  Transformer : Config Rest -> MeshT -> outcome Model;
  create_learning_rate_schedule : Config Rest -> outcome Schedule;
  get_optimizer : Config Rest -> Schedule -> outcome Optimizer;
  gen_shaped_input_data :
    Model -> Optimizer -> Config Rest -> MeshT -> outcome (Args * Kwargs * Annotations);
  (* get_functional_train_full_signature(train.train_step, ...) *)
  get_functional_train_full_signature :
    MeshT -> Annotations -> Model -> Config Rest ->
    outcome (Func * Shardings * Shardings * Argnums * Argnums);
  (* jax.jit(func, in_shardings, out_shardings, static_argnums, donate_argnums) *)
  jit : Func -> Shardings -> Shardings -> Argnums -> Argnums -> Jitted;
  (* with mesh: jitted.lower(args, kwargs) *)
  lower : MeshT -> Jitted -> Args -> Kwargs -> outcome Lowered;
  (* lowered.compile() *)
  compile : Lowered -> outcome Compiled;
  (* serialize(compiled)[0] *)
  serialize : Compiled -> outcome Serialized;
  (* the bytes that pickle.dump writes *)
  pickle : Serialized -> Bytes
}.

(** A run threads the world and stops at the first exception. *)
Definition Run (B T : Type) : Type := World B -> World B * outcome T.

Definition ret {B T} (x : T) : Run B T := fun w => (w, Done x).

Definition bindr {B T U} (r : Run B T) (k : T -> Run B U) : Run B U :=
  fun w =>
    match r w with
    | (w1, Done x) => k x w1
    | (w1, Raise e) => (w1, Raise e)
    end.

Notation "x <~ r ;; k" := (bindr r (fun x => k))
  (at level 61, r at next level, right associativity).

Definition call {B T} (o : outcome T) : Run B T := fun w => (w, o).

(** [print(line)] *)
Definition print {B} (line : string) : Run B unit :=
  fun w => (mkWorld (stdout w ++ [line]) (files w), Done tt).

(** [with open(name, "wb") as f: f.write(content)] *)
Definition write_file {B} (name : string) (content : B) : Run B unit :=
  fun w => (mkWorld (stdout w)
              (fun n => if String.eqb n name then Some content else files w n),
            Done tt).

Definition topology_message : string :=
  "You must pass your desired target hardware in compile_topology, e.g. compile_topology=v5e-256".

Definition slices_message : string :=
  "You must set compile_topology_num_slices to a positive integer".

(** [validate_config(config)]: two assertions. *)
Definition validate_config {R} (config : Config R) : outcome unit :=
  if String.eqb (compile_topology config) EmptyString
  then Raise (AssertionError topology_message)
  else if 0 <? compile_topology_num_slices config
       then Done tt
       else Raise (AssertionError slices_message).

Section Program.

Variable E : Env.

(** [get_topology_mesh(config)] *)
Definition get_topology_mesh (config : Config (Rest E)) : Run (Bytes E) (MeshT E) :=
  target_hardware <~ call (get_system_characteristics E (compile_topology config)) ;;
  topology_devices <~ call (get_topology_desc E
                              (platform target_hardware)
                              (topology_name target_hardware)
                              (chip_config_name target_hardware)
                              (chips_per_host_bounds target_hardware)
                              (compile_topology_num_slices config)) ;;
  topology_device_mesh <~ call (create_device_mesh E config topology_devices) ;;
  call (Mesh E topology_device_mesh (mesh_axes config)).

(** [get_shaped_inputs(topology_mesh, config)] *)
Definition get_shaped_inputs (topology_mesh : MeshT E) (config : Config (Rest E))
  : Run (Bytes E) (Args E * Kwargs E * Annotations E * Model E) :=
  model <~ call (Transformer E config topology_mesh) ;;
  learning_rate_schedule <~ call (create_learning_rate_schedule E config) ;;
  tx <~ call (get_optimizer E config learning_rate_schedule) ;;
  shaped <~ call (gen_shaped_input_data E model tx config topology_mesh) ;;
  let '(shaped_train_args, shaped_train_kwargs, state_mesh_annotations) := shaped in
  ret (shaped_train_args, shaped_train_kwargs, state_mesh_annotations, model).

(** [jit_and_compile(func, args, kwargs, mesh, in_shardings, out_shardings,
    static_argnums, donate_argnums)] *)
Definition jit_and_compile (func : Func E) (func_input_args : Args E)
    (func_input_kwargs : Kwargs E) (mesh : MeshT E)
    (in_shardings out_shardings : Shardings E)
    (static_argnums donate_argnums : Argnums E) : Run (Bytes E) (Compiled E) :=
  let jitted := jit E func in_shardings out_shardings static_argnums donate_argnums in
  lowered <~ call (lower E mesh jitted func_input_args func_input_kwargs) ;;
  call (compile E lowered).

(** [save_compiled(compiled, save_name)] *)
Definition save_compiled (compiled : Compiled E) (save_name : string) : Run (Bytes E) unit :=
  serialized <~ call (serialize E compiled) ;;
  write_file save_name (pickle E serialized).

(** [main(argv)] *)
Definition main (argv : list string) : Run (Bytes E) unit :=
  _ <~ print "Starting train_compile.py..." ;;
  config <~ call (initialize E argv) ;;
  _ <~ call (validate_config config) ;;
  topology_mesh <~ get_topology_mesh config ;;
  inputs <~ get_shaped_inputs topology_mesh config ;;
  let '(shaped_train_args, shaped_train_kwargs, state_mesh_annotations, model) := inputs in
  signature <~ call (get_functional_train_full_signature E topology_mesh
                       state_mesh_annotations model config) ;;
  let '(func_to_compile, in_shard, out_shard, static_argnums, donate_argnums) :=
    signature in
  _ <~ print "Jitting and compiling train step..." ;;
  compiled <~ jit_and_compile func_to_compile shaped_train_args shaped_train_kwargs
                topology_mesh in_shard out_shard static_argnums donate_argnums ;;
  _ <~ print "Jitting and compilation complete!" ;;
  _ <~ (if negb (String.eqb (compiled_trainstep_file config) EmptyString)
        then
          _ <~ print "Saving compiled object..." ;;
          _ <~ save_compiled compiled (compiled_trainstep_file config) ;;
          print ("Successfully saved compiled object as "
                 ++ compiled_trainstep_file config)%string
        else ret tt) ;;
  print "Finished train_compile.py successfully!".

End Program.

(** A stand-in environment in which every collaborator succeeds, and the
    configuration is read off the command line: topology, then the file
    to save to. *)
Definition toy_env : Env :=
  mkEnv unit unit unit unit unit unit unit unit unit unit unit unit unit unit unit
    unit unit string
    (fun argv => Done (mkConfig (nth 0 argv EmptyString) 1 (nth 1 argv EmptyString) [] tt))
    (fun _ => Done (mkHardware "tpu" "v5e:2x2" "default" [2; 2; 1]))
    (fun _ _ _ _ _ => Done tt)
    (fun _ _ => Done tt)
    (fun _ _ => Done tt)
    (fun _ _ => Done tt)
    (fun _ => Done tt)
    (fun _ _ => Done tt)
    (fun _ _ _ _ => Done (tt, tt, tt))
    (fun _ _ _ _ => Done (tt, tt, tt, tt, tt))
    (fun _ _ _ _ _ => tt)
    (fun _ _ _ _ => Done tt)
    (fun _ => Done tt)
    (fun _ => Done tt)
    (fun _ => "pickled"%string).

Definition empty_world : World string := mkWorld [] (fun _ => None).

End TrainCompile.

(* ================================================================== *)
(** * Proofs *)

(* ------------------------------------------------------------------ *)
(** ** Facts on shapes and indices *)

Lemma bdim_same (n : nat) : bdim n n = Some n.
Proof. unfold bdim. now rewrite Nat.eqb_refl. Qed.

Lemma bdim_1_l (n : nat) : bdim 1 n = Some n.
Proof.
  unfold bdim. destruct (Nat.eqb_spec 1 n) as [E | E]; [now rewrite <- E | reflexivity].
Qed.

Lemma bdim_1_r (n : nat) : bdim n 1 = Some n.
Proof.
  unfold bdim. destruct (Nat.eqb_spec n 1) as [E | E]; [reflexivity | ].
  reflexivity.
Qed.

Lemma clamp_lt (d i : nat) : (i < d)%nat -> (if (d =? 1)%nat then 0%nat else i) = i.
Proof.
  intros H. destruct (Nat.eqb_spec d 1) as [E | E]; [lia | reflexivity].
Qed.

Lemma in_bounds4 (n0 n1 n2 n3 : nat) (idx : list nat) :
  in_bounds [n0; n1; n2; n3] idx <->
  exists i0 i1 i2 i3, idx = [i0; i1; i2; i3] /\
    (i0 < n0)%nat /\ (i1 < n1)%nat /\ (i2 < n2)%nat /\ (i3 < n3)%nat.
Proof.
  unfold in_bounds. split.
  - intros H.
    inversion H as [ | i0 ? l0 ? H0 T0]; subst.
    inversion T0 as [ | i1 ? l1 ? H1 T1]; subst.
    inversion T1 as [ | i2 ? l2 ? H2 T2]; subst.
    inversion T2 as [ | i3 ? l3 ? H3 T3]; subst.
    inversion T3; subst.
    exists i0, i1, i2, i3. repeat split; assumption.
  - intros (i0 & i1 & i2 & i3 & -> & H0 & H1 & H2 & H3).
    repeat constructor; assumption.
Qed.

Lemma binop_inv {A B C} (f : A -> B -> C) (x : Array A) (y : Array B) (r : Array C) :
  binop f x y = Ok r ->
  broadcast_shapes (shape x) (shape y) = Some (shape r) /\
  forall idx, elt r idx =
    f (elt x (bcast_index (shape x) idx)) (elt y (bcast_index (shape y) idx)).
Proof.
  unfold binop. destruct (broadcast_shapes (shape x) (shape y)) as [s | ]; [ | discriminate].
  intros H. injection H as <-. split; reflexivity.
Qed.

Lemma moveaxis_m3_m1 {A} (x : Array A) (b l h d : nat) :
  shape x = [b; l; h; d] ->
  moveaxis x (-3) (-1) =
  Ok (mkArray [b; h; d; l] (fun idx => elt x (move 3 1 idx))).
Proof. intros H. unfold moveaxis. rewrite H. reflexivity. Qed.

Lemma moveaxis_m1_m3 {A} (x : Array A) (b h d l : nat) :
  shape x = [b; h; d; l] ->
  moveaxis x (-1) (-3) =
  Ok (mkArray [b; l; h; d] (fun idx => elt x (move 1 3 idx))).
Proof. intros H. unfold moveaxis. rewrite H. reflexivity. Qed.

Lemma broadcast_one_hot (b h d len : nat) :
  broadcast_shapes [b; h; d; 1%nat] [len] = Some [b; h; d; len].
Proof. unfold broadcast_shapes. simpl. now rewrite bdim_1_l. Qed.

Lemma broadcast_same4 (b h d len : nat) :
  broadcast_shapes [b; h; d; len] [b; h; d; len] = Some [b; h; d; len].
Proof. unfold broadcast_shapes. simpl. now rewrite !bdim_same. Qed.

Section CacheUpdate.

Context {A : Type} {D : DType A}.

(** The cache after the scatter of a step key at index [cur]: the result
    of [cached + moveaxis(key, -3, -1) * one_hot(cur, length)] on a cache
    of shape [b; h; d; len] and a step of shape [b; 1; h; d]. *)
Lemma scatter_step (cached key : Array A) (cur : Z) (b h d len : nat) :
  shape cached = [b; h; d; len] ->
  shape key = [b; 1%nat; h; d] ->
  exists one_token update cached1 natural,
    moveaxis key (-3) (-1) = Ok one_token /\
    mul one_token (one_hot cur len) = Ok update /\
    add cached update = Ok cached1 /\
    moveaxis cached1 (-1) (-3) = Ok natural /\
    shape cached1 = [b; h; d; len] /\
    shape natural = [b; len; h; d] /\
    (forall i j k t, (i < b)%nat -> (j < h)%nat -> (k < d)%nat -> (t < len)%nat ->
       elt cached1 [i; j; k; t] =
       dadd (elt cached [i; j; k; t])
            (dmul (elt key [i; 0%nat; j; k]) (of_bool (Z.of_nat t =? cur)))) /\
    (forall i t j k, elt natural [i; t; j; k] = elt cached1 [i; j; k; t]).
Proof.
  intros Hc Hk.
  eexists. eexists. eexists. eexists.
  split; [apply (moveaxis_m3_m1 key _ _ _ _ Hk) | ].
  split; [unfold mul, binop; cbn [shape one_hot]; rewrite broadcast_one_hot; reflexivity | ].
  split; [unfold add, binop; cbn [shape]; rewrite Hc, broadcast_same4; reflexivity | ].
  split; [apply moveaxis_m1_m3; reflexivity | ].
  split; [reflexivity | ].
  split; [reflexivity | ].
  split.
  - intros i j k t Hi Hj Hk' Ht. cbn [elt shape].
    unfold bcast_index. cbn [length Nat.sub skipn clamp_ones].
    rewrite !clamp_lt by assumption. cbn [hd].
    unfold move. cbn.
    rewrite (clamp_lt len t) by assumption. reflexivity.
  - intros i t j k. reflexivity.
Qed.

Lemma swap_dims4 (b l h d : nat) : swap_dims [b; l; h; d] = Ok [b; h; d; l].
Proof. reflexivity. Qed.

(** The causal mask of a step: [arange(length) <= cur_index] broadcast to
    [(batch, 1, 1, length)]. *)
Lemma causal_mask (cur : Z) (b len : nat) :
  exists causal,
    broadcast_to (le_scalar (arange len) cur) [b; 1%nat; 1%nat; len] = Ok causal /\
    shape causal = [b; 1%nat; 1%nat; len] /\
    (forall i q t, (t < len)%nat -> elt causal [i; q; 0%nat; t] = (Z.of_nat t <=? cur)).
Proof.
  eexists. split.
  - unfold broadcast_to, broadcast_shapes. cbn [shape le_scalar arange rev app broadcast_rev].
    rewrite bdim_same. cbn [option_map rev app].
    destruct (list_eq_dec Nat.eq_dec [b; 1%nat; 1%nat; len] [b; 1%nat; 1%nat; len]) as [_ | N];
      [reflexivity | now elim N].
  - split; [reflexivity | ].
    intros i q t Ht. cbn [elt shape le_scalar arange].
    unfold bcast_index. cbn [length Nat.sub skipn clamp_ones hd].
    now rewrite clamp_lt by assumption.
Qed.

(** A decode call on an allocated cache whose query, key and value are
    those of a single step: the scatter succeeds, and what is left of the
    branch is the combination of the masks and the slice of the bias. *)
Lemma decode_step (vars : CacheVars A) (ck cv : Array A) (ci : Z)
    (query key value : Array A) (b h d len : nat) :
  cached_key vars = Some ck ->
  cached_value vars = Some cv ->
  cache_index vars = Some ci ->
  shape ck = [b; h; d; len] ->
  shape cv = [b; h; d; len] ->
  shape query = [b; 1%nat; h; d] ->
  shape key = [b; 1%nat; h; d] ->
  shape value = [b; 1%nat; h; d] ->
  exists ck1 cv1 key2 value2 causal,
    (forall mask bias,
       autoregressive_cache vars query key value mask bias =
         (mask1 <- combine_masks mask causal ;;
          bias1 <- step_bias bias ci ;;
          Ok (mkCache (Some ck1) (Some cv1) (Some (int32_add ci 1)),
              mkDecoded key2 value2 (Some mask1) bias1))) /\
    shape ck1 = [b; h; d; len] /\
    shape cv1 = [b; h; d; len] /\
    (forall i j k t, (i < b)%nat -> (j < h)%nat -> (k < d)%nat -> (t < len)%nat ->
       elt ck1 [i; j; k; t] =
       dadd (elt ck [i; j; k; t])
            (dmul (elt key [i; 0%nat; j; k]) (of_bool (Z.of_nat t =? ci)))) /\
    (forall i j k t, (i < b)%nat -> (j < h)%nat -> (k < d)%nat -> (t < len)%nat ->
       elt cv1 [i; j; k; t] =
       dadd (elt cv [i; j; k; t])
            (dmul (elt value [i; 0%nat; j; k]) (of_bool (Z.of_nat t =? ci)))) /\
    shape key2 = [b; len; h; d] /\
    shape value2 = [b; len; h; d] /\
    (forall i t j k, elt key2 [i; t; j; k] = elt ck1 [i; j; k; t]) /\
    (forall i t j k, elt value2 [i; t; j; k] = elt cv1 [i; j; k; t]) /\
    shape causal = [b; 1%nat; 1%nat; len] /\
    (forall i q t, (t < len)%nat -> elt causal [i; q; 0%nat; t] = (Z.of_nat t <=? ci)).
Proof.
  intros Hck Hcv Hci Sck Scv Sq Sk Sv.
  destruct (scatter_step ck key ci b h d len Sck Sk)
    as (tk & uk & ck1 & key2 & Ek1 & Ek2 & Ek3 & Ek4 & Sck1 & Skey2 & Vk & Nk).
  destruct (scatter_step cv value ci b h d len Scv Sv)
    as (tv & uv & cv1 & value2 & Ev1 & Ev2 & Ev3 & Ev4 & Scv1 & Sval2 & Vv & Nv).
  destruct (causal_mask ci b len) as (causal & Ec & Sc & Vc).
  exists ck1, cv1, key2, value2, causal.
  split; [ | repeat split; assumption].
  intros mask bias. unfold autoregressive_cache.
  rewrite Hck, Hcv, Hci, Sk, Sv, !swap_dims4.
  cbn [bind has_variable variable]. rewrite Sck.
  destruct (list_eq_dec Nat.eq_dec [b; 1%nat; h; d] (shape query)) as [_ | N];
    [ | now rewrite Sq in N].
  rewrite Ek1, Ev1. cbn [bind]. rewrite Ek2. cbn [bind]. rewrite Ek3. cbn [bind].
  rewrite Ev2. cbn [bind]. rewrite Ev3. cbn [bind].
  rewrite Ek4, Ev4. cbn [bind]. rewrite Ec. cbn [bind].
  reflexivity.
Qed.

End CacheUpdate.

(* ------------------------------------------------------------------ *)
(** ** The element types have the laws *)

Lemma Z_laws : DTypeLaws Z.
Proof.
  constructor; cbn; intros; try lia; reflexivity.
Qed.

Lemma R_laws : DTypeLaws R.
Proof.
  constructor; cbn; intros; try lra.
  - unfold Rgt0. destruct (Rlt_dec 0 0); [lra | reflexivity].
  - unfold Rgt0. destruct (Rlt_dec 0 1); [reflexivity | lra].
Qed.

Lemma int32_add_small (a : Z) :
  int32_min <= a + 1 <= int32_max -> int32_add a 1 = a + 1.
Proof.
  unfold int32_add, int32_wrap, int32_min, int32_max. intros H.
  rewrite Z.mod_small by lia. lia.
Qed.

(* ------------------------------------------------------------------ *)
(** ** Decode calls on an allocated cache *)

Section Sessions.

Context {A : Type} {D : DType A} {L : DTypeLaws A}.

Lemma of_bool_mul_add (c x : A) (hit : bool) :
  dadd c (dmul x (of_bool hit)) = if hit then dadd c x else c.
Proof.
  destruct hit; cbn [of_bool].
  - now rewrite dmul_1_r.
  - now rewrite dmul_0_r, dadd_0_r.
Qed.

Lemma broadcast_mask (mb mh b len : nat) :
  mb = 1%nat \/ mb = b ->
  broadcast_shapes [mb; mh; 1%nat; len] [b; 1%nat; 1%nat; len] = Some [b; mh; 1%nat; len].
Proof.
  intros H. unfold broadcast_shapes. simpl.
  rewrite !bdim_same, bdim_1_r.
  destruct H as [-> | ->]; [rewrite bdim_1_l | rewrite bdim_same]; reflexivity.
Qed.

(** The combined mask of a decode step at index [ci]. *)
Lemma combine_masks_step (mask : option (Array A)) (causal : Array bool)
    (ci : Z) (b len : nat) :
  shape causal = [b; 1%nat; 1%nat; len] ->
  (forall i q t, (t < len)%nat -> elt causal [i; q; 0%nat; t] = (Z.of_nat t <=? ci)) ->
  mask_fits b len mask ->
  exists mask1 mh,
    combine_masks mask causal = Ok mask1 /\
    mh = match mask with Some m => nth 1 (shape m) 0%nat | None => 1%nat end /\
    shape mask1 = [b; mh; 1%nat; len] /\
    (forall i j t, (i < b)%nat -> (j < mh)%nat -> (t < len)%nat ->
       elt mask1 [i; j; 0%nat; t] =
       of_bool (match mask with
                | Some m => truth (elt m (bcast_index (shape m) [i; j; 0%nat; t]))
                | None => true
                end && (Z.of_nat t <=? ci))).
Proof.
  intros Sc Vc Hm. destruct mask as [m | ]; cbn [combine_masks mask_fits] in *.
  - destruct Hm as (mb & mh & Sm & Hmb).
    eexists. exists mh. split; [ | split; [ | split]].
    + unfold binop. rewrite Sm, Sc, (broadcast_mask mb mh b len Hmb). reflexivity.
    + now rewrite Sm.
    + reflexivity.
    + intros i j t Hi Hj Ht. cbn [elt]. rewrite Sm.
      unfold bcast_index at 2. cbn [length Nat.sub skipn clamp_ones Nat.eqb].
      rewrite (clamp_lt b i), (clamp_lt len t) by assumption.
      rewrite Vc by assumption. reflexivity.
  - eexists. exists 1%nat. split; [reflexivity | split; [reflexivity | split; [exact Sc | ]]].
    intros i j t Hi Hj Ht. cbn [elt astype_bool].
    assert (j = 0%nat) as -> by lia.
    rewrite Vc by assumption. reflexivity.
Qed.

(** A decode call of a single-token step on an allocated cache succeeds,
    keeps the shape of the cache, adds the step into the slot of the cache
    index and into no other slot, and advances the index. *)
Lemma decode_call_ok (vars : CacheVars A) (s : Step A) (b h d len : nat) (ci : Z) :
  allocated vars b h d len ci ->
  single_token b h d len s ->
  exists vars1 dec,
    autoregressive_cache vars (step_query s) (step_key s) (step_value s)
      (step_mask s) None = Ok (vars1, dec) /\
    allocated vars1 b h d len (int32_add ci 1) /\
    (forall i j k t, (i < b)%nat -> (j < h)%nat -> (k < d)%nat -> (t < len)%nat ->
       key_elt vars1 [i; j; k; t] =
       if Z.of_nat t =? ci
       then dadd (key_elt vars [i; j; k; t]) (elt (step_key s) [i; 0%nat; j; k])
       else key_elt vars [i; j; k; t]) /\
    (forall i j k t, (i < b)%nat -> (j < h)%nat -> (k < d)%nat -> (t < len)%nat ->
       value_elt vars1 [i; j; k; t] =
       if Z.of_nat t =? ci
       then dadd (value_elt vars [i; j; k; t]) (elt (step_value s) [i; 0%nat; j; k])
       else value_elt vars [i; j; k; t]).
Proof.
  intros (ck & cv & Hck & Hcv & Hci & Sck & Scv) (Sq & Sk & Sv & Hm).
  destruct (decode_step vars ck cv ci (step_query s) (step_key s) (step_value s)
              b h d len Hck Hcv Hci Sck Scv Sq Sk Sv)
    as (ck1 & cv1 & key2 & value2 & causal & E & Sck1 & Scv1 & Vk & Vv & _ & _ & _ & _ & Sc & Vc).
  destruct (combine_masks_step (step_mask s) causal ci b len Sc Vc Hm)
    as (mask1 & mh & Em & _ & _ & _).
  rewrite (E (step_mask s) None), Em. cbn [bind step_bias].
  eexists. eexists. split; [reflexivity | ].
  split; [exists ck1, cv1; repeat split; assumption | ].
  unfold key_elt, value_elt. cbn [cached_key cached_value]. rewrite Hck, Hcv.
  split; intros i j k t Hi Hj Hk Ht.
  - rewrite Vk by assumption. apply of_bool_mul_add.
  - rewrite Vv by assumption. apply of_bool_mul_add.
Qed.

(** The calls of a session that starts at index [ci]: the index advances
    by the number of calls; the slot [ci + n] receives the [n]-th step and
    the other slots keep their content. *)
Lemma decode_calls_ok (steps : list (Step A)) :
  forall (vars : CacheVars A) (b h d len : nat) (ci : Z),
  allocated vars b h d len ci ->
  Forall (single_token b h d len) steps ->
  0 <= ci ->
  ci + Z.of_nat (length steps) <= int32_max ->
  exists final,
    decode_calls vars steps = Ok final /\
    allocated final b h d len (ci + Z.of_nat (length steps)) /\
    (forall i j k t, (i < b)%nat -> (j < h)%nat -> (k < d)%nat -> (t < len)%nat ->
       (forall n s, nth_error steps n = Some s -> Z.of_nat t = ci + Z.of_nat n ->
          key_elt final [i; j; k; t] =
          dadd (key_elt vars [i; j; k; t]) (elt (step_key s) [i; 0%nat; j; k]) /\
          value_elt final [i; j; k; t] =
          dadd (value_elt vars [i; j; k; t]) (elt (step_value s) [i; 0%nat; j; k])) /\
       (Z.of_nat t < ci \/ ci + Z.of_nat (length steps) <= Z.of_nat t ->
          key_elt final [i; j; k; t] = key_elt vars [i; j; k; t] /\
          value_elt final [i; j; k; t] = value_elt vars [i; j; k; t])).
Proof.
  induction steps as [ | s rest IH]; intros vars b h d len ci Hal Hst Hci Hmax.
  - exists vars. cbn [decode_calls length]. split; [reflexivity | ].
    split; [now rewrite Z.add_0_r | ].
    intros i j k t Hi Hj Hk Ht. split.
    + intros n s E. destruct n; discriminate E.
    + intros _. split; reflexivity.
  - inversion Hst as [ | ? ? Hs Hrest]; subst.
    cbn [length] in Hmax. rewrite Nat2Z.inj_succ in Hmax.
    destruct (decode_call_ok vars s b h d len ci Hal Hs)
      as (vars1 & dec & E & Hal1 & Vk & Vv).
    rewrite int32_add_small in Hal1 by (unfold int32_min; lia).
    destruct (IH vars1 b h d len (ci + 1) Hal1 Hrest ltac:(lia) ltac:(lia))
      as (final & Ef & Half & Vf).
    exists final. cbn [decode_calls]. rewrite E. cbn [bind fst].
    split; [exact Ef | ].
    split.
    { cbn [length]. rewrite Nat2Z.inj_succ.
      replace (ci + Z.succ (Z.of_nat (length rest)))
        with (ci + 1 + Z.of_nat (length rest)) by lia.
      exact Half. }
    intros i j k t Hi Hj Hk Ht.
    destruct (Vf i j k t Hi Hj Hk Ht) as (Vw & Vu).
    specialize (Vk i j k t Hi Hj Hk Ht). specialize (Vv i j k t Hi Hj Hk Ht).
    split.
    + intros n s' E' Et. destruct n as [ | n].
      * cbn in E'. injection E' as <-.
        destruct (Vu ltac:(lia)) as (-> & ->). rewrite Vk, Vv.
        replace (Z.of_nat t =? ci) with true by (symmetry; apply Z.eqb_eq; lia).
        split; reflexivity.
      * cbn [nth_error] in E'.
        destruct (Vw n s' E' ltac:(lia)) as (-> & ->). rewrite Vk, Vv.
        replace (Z.of_nat t =? ci) with false by (symmetry; apply Z.eqb_neq; lia).
        split; reflexivity.
    + intros Hout. cbn [length] in Hout. rewrite Nat2Z.inj_succ in Hout.
      destruct (Vu ltac:(lia)) as (-> & ->). rewrite Vk, Vv.
      replace (Z.of_nat t =? ci) with false by (symmetry; apply Z.eqb_neq; lia).
      split; reflexivity.
Qed.

(** The call that finds no cache allocates it: zeros in the time-last
    layout, index 0; key, value, mask and bias go on unchanged. *)
Lemma init_call (query key value : Array A) (mask bias : option (Array A))
    (b len h d : nat) :
  shape key = [b; len; h; d] ->
  shape value = [b; len; h; d] ->
  autoregressive_cache no_cache query key value mask bias =
  Ok (mkCache (Some (zeros [b; h; d; len])) (Some (zeros [b; h; d; len])) (Some 0),
      mkDecoded key value mask bias).
Proof.
  intros Sk Sv. unfold autoregressive_cache. rewrite Sk, Sv, !swap_dims4. reflexivity.
Qed.

Lemma init_allocated (b h d len : nat) :
  allocated (mkCache (Some (zeros (A:=A) [b; h; d; len]))
                     (Some (zeros [b; h; d; len])) (Some 0)) b h d len 0.
Proof. eexists. eexists. repeat split; reflexivity. Qed.

Lemma concat_elt_steps (b h d len : nat) (steps : list (Step A)) :
  Forall (single_token b h d len) steps ->
  forall t s i j k, nth_error steps t = Some s ->
  concat_elt (map step_key steps) i t j k = elt (step_key s) [i; 0%nat; j; k].
Proof.
  induction 1 as [ | x rest (_ & Sk & _) _ IH]; intros t s i j k E.
  - destruct t; discriminate E.
  - cbn [map concat_elt]. rewrite Sk. cbn [nth]. destruct t as [ | t].
    + cbn in E. injection E as <-. reflexivity.
    + cbn [nth_error] in E. cbn [Nat.ltb Nat.leb]. rewrite Nat.sub_succ, Nat.sub_0_r.
      now apply IH.
Qed.

Lemma concat_length_steps (b h d len : nat) (steps : list (Step A)) :
  Forall (single_token b h d len) steps ->
  list_sum (map (fun x => nth 1 (shape x) 0%nat) (map step_key steps)) = length steps.
Proof.
  induction 1 as [ | x rest (_ & Sk & _) _ IH]; [reflexivity | ].
  unfold list_sum in *. cbn [map length fold_right]. rewrite Sk, IH. reflexivity.
Qed.

End Sessions.

(* ------------------------------------------------------------------ *)
(** ** The cache across a session *)

(** C1.  A session of [len] single-token decode calls on a cache freshly
    allocated with capacity [len] (which fits the int32 index) ends with
    [cache_index = len], and the cached key, moved back to the natural
    (batch, length, heads, head_dim) layout, is the concatenation along
    the length axis of the keys of the steps, in call order. *)
Theorem C1_sequential_decoding {A : Type} {D : DType A} (Laws : DTypeLaws A)
    (b h d : nat) (steps : list (Step A))
    (query0 key0 value0 : Array A) (mask0 bias0 : option (Array A)) :
  shape key0 = [b; length steps; h; d] ->
  shape value0 = [b; length steps; h; d] ->
  Forall (single_token b h d (length steps)) steps ->
  Z.of_nat (length steps) <= int32_max ->
  exists fresh dec0 final ck natural_key,
    autoregressive_cache no_cache query0 key0 value0 mask0 bias0 = Ok (fresh, dec0) /\
    decode_calls fresh steps = Ok final /\
    cache_index final = Some (Z.of_nat (length steps)) /\
    cached_key final = Some ck /\
    moveaxis ck (-1) (-3) = Ok natural_key /\
    array_eq natural_key (concatenate1 b h d (map step_key steps)).
Proof.
  intros Sk Sv Hst Hmax.
  pose proof (init_call query0 key0 value0 mask0 bias0 b (length steps) h d Sk Sv) as Ei.
  destruct (decode_calls_ok steps _ b h d (length steps) 0
              (init_allocated b h d (length steps)) Hst ltac:(lia) ltac:(lia))
    as (final & Ef & (ck & cv & Hck & Hcv & Hci & Sck & Scv) & Vf).
  eexists. eexists. exists final, ck. eexists.
  split; [exact Ei | ].
  split; [exact Ef | ].
  split; [exact Hci | ].
  split; [exact Hck | ].
  split; [apply (moveaxis_m1_m3 ck b h d (length steps) Sck) | ].
  split.
  - cbn [shape concatenate1]. now rewrite (concat_length_steps b h d (length steps)).
  - cbn [shape]. intros idx Hin.
    apply in_bounds4 in Hin. destruct Hin as (i & t & j & k & -> & Hi & Ht & Hj & Hk).
    cbn [elt concatenate1 nth]. unfold move. cbn.
    destruct (nth_error steps t) as [s | ] eqn:E;
      [ | apply nth_error_None in E; lia].
    rewrite (concat_elt_steps b h d (length steps) steps Hst t s i j k E).
    destruct (Vf i j k t Hi Hj Hk Ht) as (Vw & _).
    destruct (Vw t s E ltac:(lia)) as (Vk & _).
    unfold key_elt in Vk. rewrite Hck in Vk. cbn [cached_key elt zeros] in Vk.
    rewrite Vk. apply dadd_0_l.
Qed.

(** The scenario of the specification, through the theorem. *)
Lemma C1_sequential_decoding_witness :
  exists fresh dec0 final ck natural_key,
    autoregressive_cache no_cache Scenario.prompt Scenario.prompt Scenario.prompt
      None None = Ok (fresh, dec0) /\
    decode_calls fresh Scenario.steps = Ok final /\
    cache_index final = Some 4 /\
    cached_key final = Some ck /\
    moveaxis ck (-1) (-3) = Ok natural_key /\
    array_eq natural_key (concatenate1 1 1 2 (map step_key Scenario.steps)).
Proof.
  apply (C1_sequential_decoding Z_laws 1 1 2 Scenario.steps
           Scenario.prompt Scenario.prompt Scenario.prompt None None).
  - reflexivity.
  - reflexivity.
  - repeat constructor.
  - vm_compute. discriminate.
Defined.

(** The same scenario, evaluated: the index and the rows of the cached key
    in the natural layout. *)
Example scenario_run :
  match r <- autoregressive_cache no_cache Scenario.prompt Scenario.prompt
               Scenario.prompt None None ;;
        decode_calls (fst r) Scenario.steps with
  | Ok final =>
      (cache_index final,
       match cached_key final with
       | Some ck =>
           match moveaxis ck (-1) (-3) with
           | Ok natural_key => to_rows natural_key
           | Err _ => []
           end
       | None => []
       end)
  | Err _ => (None, [])
  end = (Some 4, [[1; 0]; [0; 1]; [1; 1]; [0; 0]]).
Proof. vm_compute. reflexivity. Qed.

(** C3, as the code has it.  The first decode call of a session allocates
    the cache, zero-filled and with index 0; the decode calls that follow
    keep its shape and each add 1 to the index, so after [n] calls (that fit
    the int32 index) [cache_index = n]: the index is a valid slot,
    [0 <= cache_index < max_length], exactly while fewer than [max_length]
    decode calls have been issued. *)
Theorem C3_index_counts_calls {A : Type} {D : DType A} (Laws : DTypeLaws A)
    (b h d len : nat) (steps : list (Step A))
    (query0 key0 value0 : Array A) (mask0 bias0 : option (Array A)) :
  shape key0 = [b; len; h; d] ->
  shape value0 = [b; len; h; d] ->
  Forall (single_token b h d len) steps ->
  Z.of_nat (length steps) <= int32_max ->
  exists fresh dec0 final,
    autoregressive_cache no_cache query0 key0 value0 mask0 bias0 = Ok (fresh, dec0) /\
    cached_key fresh = Some (zeros [b; h; d; len]) /\
    cached_value fresh = Some (zeros [b; h; d; len]) /\
    cache_index fresh = Some 0 /\
    decode_calls fresh steps = Ok final /\
    allocated final b h d len (Z.of_nat (length steps)) /\
    (index_in_range final = true <-> (length steps < len)%nat).
Proof.
  intros Sk Sv Hst Hmax.
  pose proof (init_call query0 key0 value0 mask0 bias0 b len h d Sk Sv) as Ei.
  destruct (decode_calls_ok steps _ b h d len 0
              (init_allocated b h d len) Hst ltac:(lia) ltac:(lia))
    as (final & Ef & Hal & _).
  cbn [Z.add] in Hal.
  eexists. eexists. exists final.
  split; [exact Ei | ].
  repeat (split; [reflexivity | ]).
  split; [exact Ef | ].
  split; [exact Hal | ].
  destruct Hal as (ck & cv & Hck & _ & Hci & Sck & _).
  unfold index_in_range. rewrite Hck, Hci, Sck.
  rewrite andb_true_iff, Z.leb_le, Z.ltb_lt. lia.
Qed.

Lemma C3_index_counts_calls_witness :
  exists fresh dec0 final,
    autoregressive_cache no_cache Scenario.prompt Scenario.prompt Scenario.prompt
      None None = Ok (fresh, dec0) /\
    cached_key fresh = Some (zeros [1; 1; 2; 4]%nat) /\
    cached_value fresh = Some (zeros [1; 1; 2; 4]%nat) /\
    cache_index fresh = Some 0 /\
    decode_calls fresh Scenario.steps = Ok final /\
    allocated final 1 1 2 4 4 /\
    (index_in_range final = true <-> (4 < 4)%nat).
Proof.
  apply (C3_index_counts_calls Z_laws 1 1 2 4 Scenario.steps
           Scenario.prompt Scenario.prompt Scenario.prompt None None).
  - reflexivity.
  - reflexivity.
  - repeat constructor.
  - vm_compute. discriminate.
Defined.

(** C3 as stated fails: on a cache of capacity 1 the index is a valid slot
    after the allocation, and the first decode call takes it to 1, which is
    not below the capacity. *)
Lemma C3_counterexample :
  exists fresh dec0 final dec,
    autoregressive_cache no_cache Scenario.prompt1 Scenario.prompt1
      Scenario.prompt1 None None = Ok (fresh, dec0) /\
    index_in_range fresh = true /\
    autoregressive_cache fresh (step_query Scenario.token1)
      (step_key Scenario.token1) (step_value Scenario.token1) None None
      = Ok (final, dec) /\
    cache_index final = Some 1 /\
    index_in_range final = false.
Proof.
  eexists. eexists. eexists. eexists.
  split; [reflexivity | ].
  split; [reflexivity | ].
  split; [reflexivity | ].
  split; reflexivity.
Qed.

(** C10.  A decode call on a cache whose index has reached or passed the
    capacity: the one-hot vector of the index is zero on every slot, the
    call succeeds, cached key and value keep their content on every slot,
    and the index is incremented all the same. *)
Theorem C10_decode_past_capacity {A : Type} {D : DType A} (Laws : DTypeLaws A)
    (vars : CacheVars A) (s : Step A) (b h d len : nat) (ci : Z) :
  allocated vars b h d len ci ->
  single_token b h d len s ->
  Z.of_nat len <= ci ->
  ci < int32_max ->
  (forall t, (t < len)%nat -> elt (one_hot (A:=A) ci len) [t] = zero) /\
  exists vars1 dec,
    autoregressive_cache vars (step_query s) (step_key s) (step_value s)
      (step_mask s) None = Ok (vars1, dec) /\
    allocated vars1 b h d len (ci + 1) /\
    (forall i j k t, (i < b)%nat -> (j < h)%nat -> (k < d)%nat -> (t < len)%nat ->
       key_elt vars1 [i; j; k; t] = key_elt vars [i; j; k; t] /\
       value_elt vars1 [i; j; k; t] = value_elt vars [i; j; k; t]).
Proof.
  intros Hal Hs Hge Hlt. split.
  - intros t Ht. cbn [elt one_hot arange hd].
    replace (Z.of_nat t =? ci) with false by (symmetry; apply Z.eqb_neq; lia).
    reflexivity.
  - destruct (decode_call_ok vars s b h d len ci Hal Hs) as (vars1 & dec & E & Hal1 & Vk & Vv).
    rewrite int32_add_small in Hal1 by (unfold int32_min, int32_max in *; lia).
    exists vars1, dec. split; [exact E | ]. split; [exact Hal1 | ].
    intros i j k t Hi Hj Hk Ht.
    rewrite (Vk i j k t Hi Hj Hk Ht), (Vv i j k t Hi Hj Hk Ht).
    replace (Z.of_nat t =? ci) with false by (symmetry; apply Z.eqb_neq; lia).
    split; reflexivity.
Qed.

Lemma C10_decode_past_capacity_witness :
  (forall t, (t < 2)%nat -> elt (one_hot (A:=Z) 2 2) [t] = zero) /\
  exists vars1 dec,
    autoregressive_cache Scenario.full_cache (step_query (Scenario.token 1 1))
      (step_key (Scenario.token 1 1)) (step_value (Scenario.token 1 1))
      (step_mask (Scenario.token 1 1)) None = Ok (vars1, dec) /\
    allocated vars1 1 1 2 2 (2 + 1) /\
    (forall i j k t, (i < 1)%nat -> (j < 1)%nat -> (k < 2)%nat -> (t < 2)%nat ->
       key_elt vars1 [i; j; k; t] = key_elt Scenario.full_cache [i; j; k; t] /\
       value_elt vars1 [i; j; k; t] = value_elt Scenario.full_cache [i; j; k; t]).
Proof.
  apply (C10_decode_past_capacity Z_laws Scenario.full_cache (Scenario.token 1 1) 1 1 2 2 2).
  - eexists. eexists. repeat split; reflexivity.
  - repeat constructor.
  - vm_compute. discriminate.
  - reflexivity.
Defined.

(* ------------------------------------------------------------------ *)
(** ** The shape check of a decode call *)

Lemma py_nth_from_end {T} (l : list T) (k : nat) :
  (1 <= k <= length l)%nat -> exists a, py_nth l (- Z.of_nat k) = Some a.
Proof.
  intros Hk. unfold py_nth, norm_axis.
  replace (0 <=? - Z.of_nat k) with false by (symmetry; apply Z.leb_gt; lia).
  cbn [andb].
  replace (- Z.of_nat (length l) <=? - Z.of_nat k) with true
    by (symmetry; apply Z.leb_le; lia).
  replace (- Z.of_nat k <? 0) with true by (symmetry; apply Z.ltb_lt; lia).
  cbn [andb].
  destruct (nth_error l (Z.to_nat (Z.of_nat (length l) + - Z.of_nat k))) as [a | ] eqn:E.
  - now exists a.
  - apply nth_error_None in E. lia.
Qed.

Lemma swap_dims_ok (x : list nat) :
  (3 <= length x)%nat -> exists y, swap_dims x = Ok y.
Proof.
  intros H. unfold swap_dims.
  destruct (py_nth_from_end x 2 ltac:(lia)) as (a & Ea).
  destruct (py_nth_from_end x 1 ltac:(lia)) as (b & Eb).
  destruct (py_nth_from_end x 3 ltac:(lia)) as (c & Ec).
  cbn in Ea, Eb, Ec. rewrite Ea, Eb, Ec. cbn. eexists. reflexivity.
Qed.

Lemma bind_other {T U} (r : result T) (k : T -> result U) :
  other_than_shape_error r ->
  (forall a, other_than_shape_error (k a)) ->
  other_than_shape_error (bind r k).
Proof.
  unfold other_than_shape_error. intros Hr Hk. destruct r as [a | e]; cbn.
  - apply Hk.
  - intros E. injection E as ->. now apply Hr.
Qed.

Lemma moveaxis_other {T} (x : Array T) (s t : Z) :
  other_than_shape_error (moveaxis x s t).
Proof.
  unfold other_than_shape_error, moveaxis.
  destruct (norm_axis (length (shape x)) s), (norm_axis (length (shape x)) t);
    discriminate.
Qed.

Lemma binop_other {T U V} (f : T -> U -> V) (x : Array T) (y : Array U) :
  other_than_shape_error (binop f x y).
Proof.
  unfold other_than_shape_error, binop.
  destruct (broadcast_shapes (shape x) (shape y)); discriminate.
Qed.

Lemma broadcast_to_other {T} (x : Array T) (s : list nat) :
  other_than_shape_error (broadcast_to x s).
Proof.
  unfold other_than_shape_error, broadcast_to.
  destruct (broadcast_shapes (shape x) s) as [s' | ]; [ | discriminate].
  destruct (list_eq_dec Nat.eq_dec s' s); discriminate.
Qed.

Lemma combine_masks_other {T} {D : DType T} (mask : option (Array T)) (m : Array bool) :
  other_than_shape_error (combine_masks mask m).
Proof.
  destruct mask; cbn [combine_masks]; [apply binop_other | discriminate].
Qed.

Lemma step_bias_other {T} {D : DType T} (bias : option (Array T)) (c : Z) :
  other_than_shape_error (step_bias bias c).
Proof.
  destruct bias as [b | ]; cbn [step_bias]; [ | discriminate].
  apply bind_other.
  - unfold other_than_shape_error, squeeze0.
    destruct (shape b) as [ | [ | [ | n]] s]; discriminate.
  - intros a. apply bind_other; [ | discriminate].
    unfold other_than_shape_error, dynamic_vector_slice_in_dim.
    destruct (norm_axis (length (shape a)) (-2)); [ | discriminate].
    destruct (shape (reshape_scalar c)) as [ | ? [ | ? ?]]; discriminate.
Qed.

(** C4.  A decode call against an allocated cache of shape (batch,
    num_heads, head_dim, max_length).  With a key and a value of rank 3 at
    least, as the projections give them, the call raises the cache shape
    error if and only if the shape of the query differs from (batch, 1,
    num_heads, head_dim).  When key and value have the shape of the query,
    as in a decode call of self-attention, the call raises an error if and
    only if the shape of the query differs from (batch, 1, num_heads,
    head_dim): a conforming query does not raise. *)
Theorem C4_shape_check {A : Type} {D : DType A}
    (vars : CacheVars A) (b h d len : nat) (ci : Z)
    (query key value : Array A) (mask bias : option (Array A)) :
  allocated vars b h d len ci ->
  ((3 <= length (shape key))%nat ->
   (3 <= length (shape value))%nat ->
   (autoregressive_cache vars query key value mask bias = Err CacheShapeError <->
    shape query <> [b; 1%nat; h; d])) /\
  (shape key = shape query ->
   shape value = shape query ->
   mask_fits b len mask ->
   ((exists e, autoregressive_cache vars query key value mask None = Err e) <->
    shape query <> [b; 1%nat; h; d])).
Proof.
  intros (ck & cv & Hck & Hcv & Hci & Sck & Scv).
  assert (Refused : forall ks vs bias0,
            swap_dims (shape key) = Ok ks -> swap_dims (shape value) = Ok vs ->
            shape query <> [b; 1%nat; h; d] ->
            autoregressive_cache vars query key value mask bias0 = Err CacheShapeError).
  { intros ks vs bias0 Eks Evs Sq. unfold autoregressive_cache.
    rewrite Hck, Hcv, Hci, Eks, Evs. cbn [bind has_variable variable]. rewrite Sck.
    destruct (list_eq_dec Nat.eq_dec [b; 1%nat; h; d] (shape query)) as [E | _];
      [now rewrite <- E in Sq | reflexivity]. }
  assert (Accepted : shape query = [b; 1%nat; h; d] -> shape key = shape query ->
            shape value = shape query -> mask_fits b len mask ->
            exists r, autoregressive_cache vars query key value mask None = Ok r).
  { intros Sq Sk Sv Hm. rewrite Sq in Sk, Sv.
    destruct (decode_step vars ck cv ci query key value b h d len
                Hck Hcv Hci Sck Scv Sq Sk Sv)
      as (ck1 & cv1 & key2 & value2 & causal & E & _ & _ & _ & _ & _ & _ & _ & _ & Sc & Vc).
    destruct (combine_masks_step mask causal ci b len Sc Vc Hm) as (mask1 & mh & Em & _).
    rewrite (E mask None), Em. cbn [bind step_bias]. eexists. reflexivity. }
  split.
  - intros Rk Rv.
    destruct (swap_dims_ok _ Rk) as (ks & Eks).
    destruct (swap_dims_ok _ Rv) as (vs & Evs).
    split; [ | apply (Refused ks vs bias Eks Evs)].
    intros E Sq. revert E.
    unfold autoregressive_cache.
    rewrite Hck, Hcv, Hci, Eks, Evs. cbn [bind has_variable variable]. rewrite Sck.
    destruct (list_eq_dec Nat.eq_dec [b; 1%nat; h; d] (shape query)) as [_ | N];
      [ | now rewrite Sq in N].
    repeat (apply bind_other;
            [first [apply moveaxis_other | apply binop_other | apply broadcast_to_other
                   | apply combine_masks_other | apply step_bias_other]
            | intros ?]).
    discriminate.
  - intros Sk Sv Hm. split.
    + intros (e & E) Sq.
      destruct (Accepted Sq Sk Sv Hm) as (r & Er). rewrite Er in E. discriminate E.
    + intros Sq.
      destruct (swap_dims (shape key)) as [ks | e] eqn:Eks.
      * destruct (swap_dims (shape value)) as [vs | e] eqn:Evs.
        -- exists CacheShapeError. apply (Refused ks vs None eq_refl eq_refl Sq).
        -- exists e. unfold autoregressive_cache. rewrite Eks, Evs. reflexivity.
      * exists e. unfold autoregressive_cache. rewrite Eks. reflexivity.
Qed.

Lemma C4_shape_check_witness :
  ((3 <= length (shape (step_key (Scenario.token 1 1))))%nat ->
   (3 <= length (shape (step_value (Scenario.token 1 1))))%nat ->
   (autoregressive_cache Scenario.full_cache (step_query (Scenario.token 1 1))
      (step_key (Scenario.token 1 1)) (step_value (Scenario.token 1 1)) None None
    = Err CacheShapeError <->
    shape (step_query (Scenario.token 1 1)) <> [1; 1; 1; 2]%nat)) /\
  (shape (step_key (Scenario.token 1 1)) = shape (step_query (Scenario.token 1 1)) ->
   shape (step_value (Scenario.token 1 1)) = shape (step_query (Scenario.token 1 1)) ->
   mask_fits (A:=Z) 1 2 None ->
   ((exists e,
       autoregressive_cache Scenario.full_cache (step_query (Scenario.token 1 1))
         (step_key (Scenario.token 1 1)) (step_value (Scenario.token 1 1)) None None
       = Err e) <->
    shape (step_query (Scenario.token 1 1)) <> [1; 1; 1; 2]%nat)).
Proof.
  apply (C4_shape_check Scenario.full_cache 1 1 2 2 2).
  eexists. eexists. repeat split; reflexivity.
Defined.

(** The check at work: a query of two positions against the cache of the
    scenario is refused, whatever the key and the value. *)
Example shape_check_run :
  autoregressive_cache Scenario.full_cache
    (of_list4 0 [1; 2; 1; 2]%nat [1; 0; 0; 1])
    (step_key (Scenario.token 1 1)) (step_value (Scenario.token 1 1)) None None
  = Err CacheShapeError.
Proof. reflexivity. Qed.

(** The check looks at the query alone: under a conforming query, a key of
    three positions fails later, in the product with the one-hot vector of
    the two slots. *)
Example scatter_broadcast_run :
  autoregressive_cache Scenario.full_cache (step_query (Scenario.token 1 1))
    (of_list4 0 [1; 3; 1; 2]%nat [1; 0; 0; 1; 1; 1])
    (step_value (Scenario.token 1 1)) None None
  = Err BroadcastError.
Proof. reflexivity. Qed.

(* ------------------------------------------------------------------ *)
(** ** The attention bias of a decode step *)

(** The bias that the call composes from the mask of a decode step at
    index [ci], when no bias is supplied: zero where the mask of the caller
    allows the position and the position is at most [ci], the sentinel
    elsewhere. *)
Lemma decode_attention_bias {A : Type} {D : DType A} (Laws : DTypeLaws A)
    (vars : CacheVars A) (s : Step A) (b h d len : nat) (ci : Z) :
  allocated vars b h d len ci ->
  single_token b h d len s ->
  exists vars1 dec ab mh,
    autoregressive_cache vars (step_query s) (step_key s) (step_value s)
      (step_mask s) None = Ok (vars1, dec) /\
    compose_bias (d_mask dec) (d_bias dec) = Ok (Some ab) /\
    mh = match step_mask s with Some m => nth 1 (shape m) 0%nat | None => 1%nat end /\
    shape ab = [b; mh; 1%nat; len] /\
    shape (d_key dec) = [b; len; h; d] /\
    (forall i j t, (i < b)%nat -> (j < mh)%nat -> (t < len)%nat ->
       elt ab [i; j; 0%nat; t] =
       if match step_mask s with
          | Some m => truth (elt m (bcast_index (shape m) [i; j; 0%nat; t]))
          | None => true
          end && (Z.of_nat t <=? ci)
       then zero else neg_1e10).
Proof.
  intros (ck & cv & Hck & Hcv & Hci & Sck & Scv) (Sq & Sk & Sv & Hm).
  destruct (decode_step vars ck cv ci (step_query s) (step_key s) (step_value s)
              b h d len Hck Hcv Hci Sck Scv Sq Sk Sv)
    as (ck1 & cv1 & key2 & value2 & causal & E & _ & _ & _ & _ & Sk2 & _ & _ & _ & Sc & Vc).
  destruct (combine_masks_step (step_mask s) causal ci b len Sc Vc Hm)
    as (mask1 & mh & Em & Emh & Sm1 & Vm1).
  rewrite (E (step_mask s) None), Em. cbn [bind step_bias].
  eexists. eexists. eexists. exists mh.
  split; [reflexivity | ].
  cbn [d_mask d_bias d_key compose_bias mask_to_bias].
  split; [reflexivity | ].
  split; [exact Emh | ].
  split; [exact Sm1 | ].
  split; [exact Sk2 | ].
  intros i j t Hi Hj Ht. cbn [elt select gt_zero full].
  rewrite (Vm1 i j t Hi Hj Ht).
  destruct (_ && _); cbn [of_bool]; [now rewrite gt0_one | now rewrite gt0_zero].
Qed.

(** *** Softmax *)

Lemma Rsum_nonneg (l : list R) :
  (forall y, In y l -> (0 <= y)%R) -> (0 <= Rsum l)%R.
Proof.
  induction l as [ | x l IH]; intros H; cbn [Rsum fold_right].
  - lra.
  - assert (0 <= x)%R by (apply H; now left).
    assert (0 <= Rsum l)%R by (apply IH; intros y Hy; apply H; now right).
    unfold Rsum in *. lra.
Qed.

Lemma Rsum_ge_member (l : list R) (x : R) :
  (forall y, In y l -> (0 <= y)%R) -> In x l -> (x <= Rsum l)%R.
Proof.
  induction l as [ | a l IH]; intros H Hx; [destruct Hx | ].
  cbn [Rsum fold_right].
  assert (0 <= a)%R by (apply H; now left).
  assert (0 <= Rsum l)%R by (apply Rsum_nonneg; intros y Hy; apply H; now right).
  destruct Hx as [-> | Hx].
  - unfold Rsum in *. lra.
  - assert (x <= Rsum l)%R by (apply IH; [intros y Hy; apply H; now right | exact Hx]).
    unfold Rsum in *. lra.
Qed.

(** A weight is at most the exponential of the difference between its
    logit and the logit of any key position. *)
Lemma attention_weight_bound (query key : Array R) (bias : option (Array R))
    (b h q k k' : nat) :
  (k' < nth 1 (shape key) 0)%nat ->
  (attention_weight query key bias b h q k
   <= exp (logit query key bias b h q k - logit query key bias b h q k'))%R.
Proof.
  intros Hk'. unfold attention_weight.
  set (f := fun k0 => exp (logit query key bias b h q k0)).
  set (S := Rsum (map f (seq 0 (nth 1 (shape key) 0%nat)))).
  assert (Hpos : (0 < f k')%R) by apply exp_pos.
  assert (Hge : (f k' <= S)%R).
  { apply Rsum_ge_member.
    - intros y Hy. apply in_map_iff in Hy. destruct Hy as (k0 & <- & _).
      left. apply exp_pos.
    - apply in_map. apply in_seq. lia. }
  change (exp (logit query key bias b h q k)) with (f k).
  unfold Rminus. rewrite exp_plus, exp_Ropp.
  change (exp (logit query key bias b h q k)) with (f k).
  change (exp (logit query key bias b h q k')) with (f k').
  unfold Rdiv. apply Rmult_le_compat_l.
  - left. apply exp_pos.
  - apply Rinv_le_contravar; assumption.
Qed.

(** C2, as the code has it.  In the decode step taken at cache index [ci]
    the bias composed from the mask is the sentinel -1e10 at every key
    position beyond [ci], whatever mask the caller passes; the softmax
    weight of a position is at most the exponential of its logit minus the
    logit of any other key position. *)
Theorem C2_causal_bias (vars : CacheVars R) (s : Step R) (b h d len : nat) (ci : Z) :
  allocated vars b h d len ci ->
  single_token b h d len s ->
  exists vars1 dec ab mh,
    autoregressive_cache vars (step_query s) (step_key s) (step_value s)
      (step_mask s) None = Ok (vars1, dec) /\
    compose_bias (d_mask dec) (d_bias dec) = Ok (Some ab) /\
    shape ab = [b; mh; 1%nat; len] /\
    (forall i j t, (i < b)%nat -> (j < mh)%nat -> (t < len)%nat -> ci < Z.of_nat t ->
       elt ab [i; j; 0%nat; t] = neg_1e10) /\
    (forall i j t t', (t' < len)%nat ->
       (attention_weight (step_query s) (d_key dec) (Some ab) i j 0 t
        <= exp (logit (step_query s) (d_key dec) (Some ab) i j 0 t
                - logit (step_query s) (d_key dec) (Some ab) i j 0 t'))%R).
Proof.
  intros Hal Hs.
  destruct (decode_attention_bias R_laws vars s b h d len ci Hal Hs)
    as (vars1 & dec & ab & mh & E & Eb & _ & Sab & Sk & Vab).
  exists vars1, dec, ab, mh.
  split; [exact E | ]. split; [exact Eb | ]. split; [exact Sab | ].
  split.
  - intros i j t Hi Hj Ht Hgt. rewrite (Vab i j t Hi Hj Ht).
    replace (Z.of_nat t <=? ci) with false by (symmetry; apply Z.leb_gt; lia).
    now rewrite andb_false_r.
  - intros i j t t' Ht'. apply attention_weight_bound. rewrite Sk. exact Ht'.
Qed.

Lemma C2_causal_bias_witness :
  exists vars1 dec ab mh,
    autoregressive_cache MaskedStep.fresh MaskedStep.query MaskedStep.key
      MaskedStep.value (Some MaskedStep.mask) None = Ok (vars1, dec) /\
    compose_bias (d_mask dec) (d_bias dec) = Ok (Some ab) /\
    shape ab = [1; mh; 1; 2]%nat /\
    (forall i j t, (i < 1)%nat -> (j < mh)%nat -> (t < 2)%nat -> 0 < Z.of_nat t ->
       elt ab [i; j; 0%nat; t] = neg_1e10) /\
    (forall i j t t', (t' < 2)%nat ->
       (attention_weight MaskedStep.query (d_key dec) (Some ab) i j 0 t
        <= exp (logit MaskedStep.query (d_key dec) (Some ab) i j 0 t
                - logit MaskedStep.query (d_key dec) (Some ab) i j 0 t'))%R).
Proof.
  apply (C2_causal_bias MaskedStep.fresh
           (mkStep MaskedStep.query MaskedStep.key MaskedStep.value
                   (Some MaskedStep.mask)) 1 1 1 2 0).
  - eexists. eexists. repeat split; reflexivity.
  - repeat split; try reflexivity.
    exists 1%nat, 1%nat. split; [reflexivity | now left].
Defined.

Lemma Rtruth_0 : Rtruth 0 = false.
Proof. unfold Rtruth. destruct (Req_dec_T 0 0) as [_ | N]; [reflexivity | now elim N]. Qed.

(** C2 as stated fails: when the mask of the caller allows no key position
    the logits of the step all carry the sentinel, the softmax is uniform,
    and the position 1, beyond the cache index 0, weighs 1/2. *)
Lemma C2_counterexample :
  exists vars1 dec ab,
    autoregressive_cache MaskedStep.fresh MaskedStep.query MaskedStep.key
      MaskedStep.value (Some MaskedStep.mask) None = Ok (vars1, dec) /\
    cache_index MaskedStep.fresh = Some 0 /\
    compose_bias (d_mask dec) (d_bias dec) = Ok (Some ab) /\
    attention_weight MaskedStep.query (d_key dec) (Some ab) 0 0 0 1 = (1 / 2)%R.
Proof.
  destruct (decode_attention_bias R_laws MaskedStep.fresh
              (mkStep MaskedStep.query MaskedStep.key MaskedStep.value
                      (Some MaskedStep.mask)) 1 1 1 2 0)
    as (vars1 & dec & ab & mh & E & Eb & Emh & Sab & Sk & Vab).
  { eexists. eexists. repeat split; reflexivity. }
  { repeat split; try reflexivity.
    exists 1%nat, 1%nat. split; [reflexivity | now left]. }
  cbn in Emh. subst mh.
  exists vars1, dec, ab.
  split; [exact E | ]. split; [reflexivity | ]. split; [exact Eb | ].
  assert (B : forall t, (t < 2)%nat -> elt ab [0; 0; 0; t]%nat = (-10000000000)%R).
  { intros t Ht. rewrite (Vab 0%nat 0%nat t) by lia.
    cbn [step_mask].
    replace (elt MaskedStep.mask (bcast_index (shape MaskedStep.mask) [0; 0; 0; t]%nat))
      with 0%R by (destruct t as [ | [ | t]]; [reflexivity | reflexivity | lia]).
    cbn [truth R_dtype]. rewrite Rtruth_0. reflexivity. }
  unfold attention_weight, logit. rewrite Sk, Sab.
  change (nth 3 (shape MaskedStep.query) 0%nat) with 1%nat.
  cbn [nth seq map Rsum fold_right].
  change (bcast_index [1; 1; 1; 2]%nat [0; 0; 0; 1]%nat) with [0; 0; 0; 1]%nat.
  change (bcast_index [1; 1; 1; 2]%nat [0; 0; 0; 0]%nat) with [0; 0; 0; 0]%nat.
  rewrite !B by lia.
  change (elt MaskedStep.query [0; 0; 0; 0]%nat) with 0%R.
  rewrite !Rmult_0_l, !Rplus_0_l, Rplus_0_r.
  pose proof (exp_pos (-10000000000)) as P.
  field. lra.
Qed.

(* ------------------------------------------------------------------ *)
(** ** The bias row of a decode step *)

Lemma step_bias_row {A : Type} {D : DType A} (bias : Array A) (ci : Z) (hb qlen klen : nat) :
  shape bias = [1%nat; hb; qlen; klen] ->
  exists row,
    step_bias (Some bias) ci = Ok (Some row) /\
    shape row = [1%nat; hb; 1%nat; klen] /\
    (forall n j k, elt row [n; j; 0%nat; k] = elt bias [0%nat; j; Z.to_nat ci; k]).
Proof.
  intros Sb. eexists. split; [ | split].
  - cbn [step_bias]. unfold squeeze0. rewrite Sb. cbn [bind].
    unfold dynamic_vector_slice_in_dim. cbn [shape reshape_scalar length].
    change (norm_axis 3 (-2)) with (Some 1%nat). cbn [bind]. reflexivity.
  - reflexivity.
  - intros n j k. cbn [elt reshape_scalar hd tl nth]. unfold replace_at.
    cbn [firstn skipn app]. now rewrite Nat.add_0_r.
Qed.

(** C6.  In a decode step where a bias of shape (1, heads, q_length,
    length) is supplied and covers the cache index, the bias that the call
    combines is one row, the row of the supplied bias at the cache index as
    it is before the step advances it; the composed attention bias is the
    mask-derived bias plus that row; and a bias that agrees with the
    supplied one on that row gives the same cache, key, value, mask and
    row. *)
Theorem C6_bias_row {A : Type} {D : DType A}
    (vars : CacheVars A) (s : Step A) (bias : Array A)
    (b h d len hb qlen : nat) (ci : Z) :
  allocated vars b h d len ci ->
  single_token b h d len s ->
  shape bias = [1%nat; hb; qlen; len] ->
  0 <= ci < Z.of_nat qlen ->
  exists vars1 dec row,
    autoregressive_cache vars (step_query s) (step_key s) (step_value s)
      (step_mask s) (Some bias) = Ok (vars1, dec) /\
    cache_index vars1 = Some (int32_add ci 1) /\
    d_bias dec = Some row /\
    shape row = [1%nat; hb; 1%nat; len] /\
    (forall j k, elt row [0; j; 0; k]%nat = elt bias [0%nat; j; Z.to_nat ci; k]) /\
    (forall ab, compose_bias (d_mask dec) (d_bias dec) = Ok (Some ab) ->
       exists mb, mask_to_bias (d_mask dec) = Some mb /\
         forall idx, elt ab idx =
           dadd (elt mb (bcast_index (shape mb) idx))
                (elt row (bcast_index (shape row) idx))) /\
    (forall bias2,
       shape bias2 = shape bias ->
       (forall j k, (j < hb)%nat -> (k < len)%nat ->
          elt bias2 [0%nat; j; Z.to_nat ci; k] = elt bias [0%nat; j; Z.to_nat ci; k]) ->
       exists row2,
         autoregressive_cache vars (step_query s) (step_key s) (step_value s)
           (step_mask s) (Some bias2)
         = Ok (vars1, mkDecoded (d_key dec) (d_value dec) (d_mask dec) (Some row2)) /\
         array_eq row row2).
Proof.
  intros (ck & cv & Hck & Hcv & Hci & Sck & Scv) (Sq & Sk & Sv & Hm) Sb Hrange.
  destruct (decode_step vars ck cv ci (step_query s) (step_key s) (step_value s)
              b h d len Hck Hcv Hci Sck Scv Sq Sk Sv)
    as (ck1 & cv1 & key2 & value2 & causal & E & _ & _ & _ & _ & _ & _ & _ & _ & Sc & Vc).
  destruct (combine_masks_step (step_mask s) causal ci b len Sc Vc Hm)
    as (mask1 & mh & Em & _ & Sm1 & _).
  destruct (step_bias_row bias ci hb qlen len Sb) as (row & Er & Sr & Vr).
  eexists. eexists. exists row.
  split; [rewrite (E (step_mask s) (Some bias)), Em; cbn [bind]; rewrite Er; reflexivity | ].
  cbn [cache_index d_bias d_mask d_key d_value].
  split; [reflexivity | ]. split; [reflexivity | ]. split; [exact Sr | ].
  split; [intros j k; apply Vr | ].
  split.
  - intros ab Eab. eexists. split; [reflexivity | ].
    cbn [compose_bias mask_to_bias combine_biases] in Eab.
    destruct (add _ row) as [r | e] eqn:Ea; [ | discriminate Eab].
    cbn [bind] in Eab. injection Eab as <-.
    apply binop_inv in Ea. destruct Ea as (_ & Ea). exact Ea.
  - intros bias2 Sb2 Hagree. rewrite Sb in Sb2.
    destruct (step_bias_row bias2 ci hb qlen len Sb2) as (row2 & Er2 & Sr2 & Vr2).
    exists row2. split.
    + rewrite (E (step_mask s) (Some bias2)), Em. cbn [bind]. rewrite Er2. reflexivity.
    + split; [now rewrite Sr, Sr2 | ].
      rewrite Sr. intros idx Hin. apply in_bounds4 in Hin.
      destruct Hin as (n & j & q & k & -> & Hn & Hj & Hq & Hk).
      assert (q = 0%nat) as -> by lia.
      rewrite Vr, Vr2. symmetry. now apply Hagree.
Qed.

Lemma C6_bias_row_witness :
  exists vars1 dec row,
    autoregressive_cache Scenario.one_step_cache (step_query (Scenario.token 0 1))
      (step_key (Scenario.token 0 1)) (step_value (Scenario.token 0 1))
      (step_mask (Scenario.token 0 1)) (Some Scenario.bias) = Ok (vars1, dec) /\
    cache_index vars1 = Some (int32_add 1 1) /\
    d_bias dec = Some row /\
    shape row = [1; 1; 1; 2]%nat /\
    (forall j k, elt row [0; j; 0; k]%nat = elt Scenario.bias [0%nat; j; Z.to_nat 1; k]) /\
    (forall ab, compose_bias (d_mask dec) (d_bias dec) = Ok (Some ab) ->
       exists mb, mask_to_bias (d_mask dec) = Some mb /\
         forall idx, elt ab idx =
           dadd (elt mb (bcast_index (shape mb) idx))
                (elt row (bcast_index (shape row) idx))) /\
    (forall bias2,
       shape bias2 = shape Scenario.bias ->
       (forall j k, (j < 1)%nat -> (k < 2)%nat ->
          elt bias2 [0%nat; j; Z.to_nat 1; k]
          = elt Scenario.bias [0%nat; j; Z.to_nat 1; k]) ->
       exists row2,
         autoregressive_cache Scenario.one_step_cache (step_query (Scenario.token 0 1))
           (step_key (Scenario.token 0 1)) (step_value (Scenario.token 0 1))
           (step_mask (Scenario.token 0 1)) (Some bias2)
         = Ok (vars1, mkDecoded (d_key dec) (d_value dec) (d_mask dec) (Some row2)) /\
         array_eq row row2).
Proof.
  apply (C6_bias_row Scenario.one_step_cache (Scenario.token 0 1) Scenario.bias
           1 1 2 2 1 2 1).
  - eexists. eexists. repeat split; reflexivity.
  - repeat constructor.
  - reflexivity.
  - lia.
Defined.

(** The bias of a decode step has a leading axis of size 1: the call
    squeezes it, and fails on any other size. *)
Lemma bias_leading_axis {A : Type} {D : DType A}
    (vars : CacheVars A) (s : Step A) (bias : Array A)
    (b h d len n : nat) (rest : list nat) (ci : Z) :
  allocated vars b h d len ci ->
  single_token b h d len s ->
  shape bias = n :: rest ->
  n <> 1%nat ->
  autoregressive_cache vars (step_query s) (step_key s) (step_value s)
    (step_mask s) (Some bias) = Err SqueezeError.
Proof.
  intros (ck & cv & Hck & Hcv & Hci & Sck & Scv) (Sq & Sk & Sv & Hm) Sb Hn.
  destruct (decode_step vars ck cv ci (step_query s) (step_key s) (step_value s)
              b h d len Hck Hcv Hci Sck Scv Sq Sk Sv)
    as (ck1 & cv1 & key2 & value2 & causal & E & _ & _ & _ & _ & _ & _ & _ & _ & Sc & Vc).
  destruct (combine_masks_step (step_mask s) causal ci b len Sc Vc Hm)
    as (mask1 & mh & Em & _).
  rewrite (E (step_mask s) (Some bias)), Em. cbn [bind step_bias].
  unfold squeeze0. rewrite Sb.
  destruct n as [ | [ | n]]; [reflexivity | now elim Hn | reflexivity].
Qed.

(** The step of the witness, evaluated: the row of the bias at index 1 and
    the attention bias composed with the causal mask. *)
Example bias_row_run :
  match autoregressive_cache Scenario.one_step_cache (step_query (Scenario.token 0 1))
          (step_key (Scenario.token 0 1)) (step_value (Scenario.token 0 1))
          None (Some Scenario.bias) with
  | Ok (vars1, dec) =>
      (cache_index vars1,
       option_map to_list (d_bias dec),
       match compose_bias (d_mask dec) (d_bias dec) with
       | Ok (Some ab) => to_list ab
       | _ => []
       end)
  | Err _ => (None, None, [])
  end = (Some 2, Some [12; 13], [12; 13]).
Proof. vm_compute. reflexivity. Qed.

(* ------------------------------------------------------------------ *)
(** ** The call outside decoding, and its randomness *)

Lemma py_drop_last_app {T} (l tail : list T) :
  py_drop_last (length tail) (l ++ tail) = l.
Proof.
  unfold py_drop_last. rewrite length_app, Nat.add_sub.
  rewrite firstn_app, Nat.sub_diag, firstn_all. cbn [firstn]. apply app_nil_r.
Qed.

Lemma py_last_restore {T} (l : list T) (x : T) :
  py_nth l (-1) = Some x -> py_drop_last 1 l ++ [x] = l.
Proof.
  intros H.
  assert (N : l <> []) by (intros ->; discriminate H).
  destruct (exists_last N) as (l' & y & ->).
  - unfold py_nth, norm_axis in H. rewrite length_app in H. cbn [length] in H.
    replace (0 <=? -1) with false in H by reflexivity. cbn [andb] in H.
    replace (- Z.of_nat (length l' + 1) <=? -1) with true in H
      by (symmetry; apply Z.leb_le; lia).
    cbn [andb Z.ltb Z.compare] in H.
    replace (Z.to_nat (Z.of_nat (length l' + 1) + -1)) with (length l') in H by lia.
    rewrite nth_error_app2, Nat.sub_diag in H by lia. cbn in H. injection H as ->.
    change 1%nat with (length [x]) at 1. now rewrite (py_drop_last_app l' [x]).
Qed.

(** C8.  A call outside decoding leaves the cache collection as it found
    it, and with collaborators that respect the shape contracts its output
    has the shape of the query input; the call returns as soon as the mask
    and the bias are not both given and the dropout stream is there when
    dropout is active. *)
Theorem C8_priming_call {A : Type} {D : DType A} (m : Models A)
    (self : Attention A) (vars : CacheVars A) (rngs : Rngs)
    (inputs_q inputs_kv : Array A) (attention_type : string)
    (decoder_segment_ids inputs_positions : option (Array Z))
    (mask bias : option (Array A)) (deterministic : bool) :
  ShapeContracts m ->
  shape inputs_q <> [] ->
  (forall out vars1,
     attention_call m self vars rngs inputs_q inputs_kv attention_type
       decoder_segment_ids inputs_positions mask bias false deterministic
     = Ok (out, vars1) ->
     vars1 = vars /\ shape out = shape inputs_q) /\
  (mask = None \/ bias = None ->
   deterministic = true \/ Qle_bool (dropout_rate self) 0 = true
     \/ rngs "dropout"%string <> None ->
   exists out,
     attention_call m self vars rngs inputs_q inputs_kv attention_type
       decoder_segment_ids inputs_positions mask bias false deterministic
     = Ok (out, vars)).
Proof.
  intros C Hq.
  assert (Hf : exists f, py_nth (shape inputs_q) (-1) = Some f).
  { apply (py_nth_from_end (shape inputs_q) 1).
    destruct (shape inputs_q); [now elim Hq | cbn [length]; lia]. }
  destruct Hf as (f & Ef).
  split.
  - intros out vars1 E. unfold attention_call, project_qkv in E.
    cbn [bind d_mask d_bias d_key d_value] in E.
    destruct (compose_bias mask bias) as [ab | ]; [ | discriminate E].
    cbn [bind] in E.
    destruct (draw_dropout_rng self rngs deterministic) as [rng | ]; [ | discriminate E].
    cbn [bind] in E. rewrite Ef in E. cbn [of_option bind] in E.
    injection E as <- <-. split; [reflexivity | ].
    unfold with_logical_constraint, checkpoint_name.
    rewrite (dense_shape m C), (attention_shape m C), (rotary_shape m C), (dense_shape m C).
    change (length [-1]) with 1%nat.
    change (length [-2; -1]) with (length [num_heads self; head_dim self]).
    rewrite (py_drop_last_app (py_drop_last 1 (shape inputs_q)) [num_heads self; head_dim self]).
    now apply py_last_restore.
  - intros Hmb Hrng. unfold attention_call, project_qkv.
    cbn [bind d_mask d_bias d_key d_value].
    assert (Eb : exists ab, compose_bias mask bias = Ok ab).
    { destruct Hmb as [-> | ->]; unfold compose_bias; cbn [mask_to_bias].
      - destruct bias; cbn; eexists; reflexivity.
      - eexists; reflexivity. }
    destruct Eb as (ab & ->). cbn [bind].
    assert (Er : exists rng, draw_dropout_rng self rngs deterministic = Ok rng).
    { unfold draw_dropout_rng, make_rng.
      destruct deterministic; [eexists; reflexivity | ].
      destruct (Qle_bool (dropout_rate self) 0); [eexists; reflexivity | ].
      cbn [negb andb].
      destruct Hrng as [Hd | [Hd | Hd]]; try discriminate Hd.
      destruct (rngs "dropout"%string); [eexists; reflexivity | now elim Hd]. }
    destruct Er as (rng & ->). cbn [bind]. rewrite Ef. cbn [of_option bind].
    eexists. reflexivity.
Qed.

Lemma toy_contracts : ShapeContracts Toy.models.
Proof. constructor; reflexivity. Qed.

Lemma C8_priming_call_witness :
  (forall out vars1,
     attention_call Toy.models Toy.self_attention no_cache Toy.no_rngs
       Toy.inputs Toy.inputs "dot_product" None None None None false true
     = Ok (out, vars1) ->
     vars1 = no_cache /\ shape out = shape Toy.inputs) /\
  (@None (Array Z) = None \/ @None (Array Z) = None ->
   true = true \/ Qle_bool (dropout_rate Toy.self_attention) 0 = true
     \/ Toy.no_rngs "dropout"%string <> None ->
   exists out,
     attention_call Toy.models Toy.self_attention no_cache Toy.no_rngs
       Toy.inputs Toy.inputs "dot_product" None None None None false true
     = Ok (out, no_cache)).
Proof.
  apply (C8_priming_call Toy.models Toy.self_attention no_cache Toy.no_rngs
           Toy.inputs Toy.inputs "dot_product" None None None None true).
  - exact toy_contracts.
  - discriminate.
Defined.

(** C9.  The call is a function of its inputs, of the cache it is given
    and of the dropout stream alone: two calls that differ only in their
    rng streams give the same output and the same cache when the streams
    agree on the dropout key, and also, whatever the streams, when the
    call is deterministic or the dropout rate is not positive. *)
Theorem C9_determinism {A : Type} {D : DType A} (m : Models A)
    (self : Attention A) (vars : CacheVars A) (rngs1 rngs2 : Rngs)
    (inputs_q inputs_kv : Array A) (attention_type : string)
    (decoder_segment_ids inputs_positions : option (Array Z))
    (mask bias : option (Array A)) (decode deterministic : bool) :
  rngs1 "dropout"%string = rngs2 "dropout"%string
  \/ deterministic = true \/ Qle_bool (dropout_rate self) 0 = true ->
  attention_call m self vars rngs1 inputs_q inputs_kv attention_type
    decoder_segment_ids inputs_positions mask bias decode deterministic
  = attention_call m self vars rngs2 inputs_q inputs_kv attention_type
      decoder_segment_ids inputs_positions mask bias decode deterministic.
Proof.
  intros H.
  assert (E : draw_dropout_rng self rngs1 deterministic
              = draw_dropout_rng self rngs2 deterministic).
  { unfold draw_dropout_rng, make_rng. destruct H as [-> | [-> | ->]].
    - reflexivity.
    - reflexivity.
    - now rewrite andb_false_r. }
  unfold attention_call. now rewrite E.
Qed.

Lemma C9_determinism_witness :
  attention_call Toy.models Toy.dropping_attention no_cache Toy.rngs_a
    Toy.inputs Toy.inputs "dot_product" None None None None false false
  = attention_call Toy.models Toy.dropping_attention no_cache Toy.rngs_b
      Toy.inputs Toy.inputs "dot_product" None None None None false false.
Proof.
  apply (C9_determinism Toy.models Toy.dropping_attention no_cache Toy.rngs_a Toy.rngs_b).
  left. reflexivity.
Defined.

(* ------------------------------------------------------------------ *)
(** ** The scaling of the query *)

(** C7.  With real elements and a positive [head_dim]: the initializer of
    the query projection is the kernel initializer divided by
    sqrt(head_dim), so its kernels times sqrt(head_dim) are those of the
    kernel initializer; the key and value projections are built with the
    kernel initializer itself; and outside decoding the attention receives
    these projections, rotated for query and key, with no other scaling on
    the way. *)
Theorem C7_query_init_scaling (m : Models R) (self : Attention R)
    (vars : CacheVars R) (rngs : Rngs) (inputs_q inputs_kv : Array R)
    (attention_type : string)
    (decoder_segment_ids inputs_positions : option (Array Z))
    (mask bias : option (Array R)) (deterministic : bool) :
  (0 < head_dim self)%nat ->
  (forall args,
     shape (query_init self args) = shape (kernel_init self args) /\
     forall idx,
       (elt (query_init self args) idx * sqrt (INR (head_dim self)))%R
       = elt (kernel_init self args) idx) /\
  let projection := DenseGeneral m [num_heads self; head_dim self] [-1] in
  let query :=
    LLaMARotaryEmbedding m (head_dim self) "query_rotary"
      (projection (query_init self) "query"%string inputs_q) inputs_positions in
  let key :=
    LLaMARotaryEmbedding m (head_dim self) "key_rotary"
      (projection (kernel_init self) "key"%string inputs_kv) inputs_positions in
  let value := projection (kernel_init self) "value"%string inputs_kv in
  project_qkv m self inputs_q inputs_kv inputs_positions = (query, key, value) /\
  attention_call m self vars rngs inputs_q inputs_kv attention_type
    decoder_segment_ids inputs_positions mask bias false deterministic
  = (attention_bias <- compose_bias mask bias ;;
     dropout_rng <- draw_dropout_rng self rngs deterministic ;;
     features <- of_option IndexError (py_nth (shape inputs_q) (-1)) ;;
     Ok (DenseGeneral m [features] [-2; -1] (kernel_init self) "out"%string
           (apply_attention m query key value attention_type decoder_segment_ids
              attention_bias dropout_rng deterministic false),
         vars)).
Proof.
  intros Hd. split; [ | split; reflexivity].
  intros args. split; [reflexivity | ].
  intros idx. unfold query_init, depth_scaling. cbn [elt ddiv sqrt_nat R_dtype].
  assert (0 < sqrt (INR (head_dim self)))%R.
  { apply sqrt_lt_R0. now apply lt_0_INR. }
  field. lra.
Qed.

Lemma C7_query_init_scaling_witness :
  (0 < head_dim RealInit.self)%nat /\
  (elt (query_init RealInit.self RealInit.args) [0; 0; 0]%nat * sqrt (INR 4))%R
  = elt (kernel_init RealInit.self RealInit.args) [0; 0; 0]%nat.
Proof.
  split; [cbn; lia | ].
  apply (C7_query_init_scaling RealInit.models RealInit.self no_cache (fun _ => None)
           RealInit.x RealInit.x "dot_product" None None None None true).
  cbn. lia.
Defined.

(* ------------------------------------------------------------------ *)
(** ** The decoder layer *)

(** The post-attention normalization has no part in the output of the
    layer: with any other in its place the layer returns the same. *)
Lemma decoder_layer_ignores_post_norm {A : Type} {D : DType A} (m : Models A)
    (ln : string -> Array A -> Array A) (cfg : Config) (vars : CacheVars A)
    (rngs : Rngs) (inputs : Array A)
    (decoder_segment_ids decoder_positions : option (Array Z))
    (decoder_mask : option (Array A)) (deterministic decode : bool)
    (max_decode_length : nat) :
  decoder_layer_call (with_LayerNorm m ln) cfg vars rngs inputs decoder_segment_ids
    decoder_positions decoder_mask deterministic decode max_decode_length
  = decoder_layer_call m cfg vars rngs inputs decoder_segment_ids
      decoder_positions decoder_mask deterministic decode max_decode_length.
Proof. reflexivity. Qed.

(** C5 fails on the code.  On the input of one position of value 3, with
    the stand-in collaborators, the pre-attention normalization gives 4,
    the attention 4, the residual sum 7 and its post-attention
    normalization 14; the layer returns 4 * 4 + 7 = 23, the feed-forward
    block having received the pre-attention normalization 4, where the
    normalized tensor 14 would give 14 * 14 + 7 = 203. *)
Theorem C5_mlp_receives_pre_attention_norm :
  match decoder_layer_call Toy.models Toy.cfg no_cache Toy.no_rngs Toy.inputs
          None None None true false 1 with
  | Ok (o, _) => to_list (layer_output_of o)
  | Err _ => []
  end = [23] /\
  match decoder_layer_spec Toy.models Toy.cfg no_cache Toy.no_rngs Toy.inputs
          None None None true false 1 with
  | Ok (o, _) => to_list (layer_output_of o)
  | Err _ => []
  end = [203].
Proof. split; vm_compute; reflexivity. Qed.

(* ================================================================== *)
(** * Further properties of the code *)

(* ------------------------------------------------------------------ *)
(** ** The layout of the cache, at any rank *)

Lemma split_last3 {T} (l : list T) :
  (3 <= length l)%nat -> exists pre a b c, l = pre ++ [a; b; c].
Proof.
  intros H.
  destruct (@exists_last T l) as (l1 & c & ->); [intros ->; cbn in H; lia | ].
  rewrite length_app in H. cbn [length] in H.
  destruct (@exists_last T l1) as (l2 & b & ->); [intros ->; cbn in H; lia | ].
  rewrite length_app in H. cbn [length] in H.
  destruct (@exists_last T l2) as (l3 & a & ->); [intros ->; cbn in H; lia | ].
  exists l3, a, b, c. now rewrite <- !app_assoc.
Qed.

Lemma norm_axis_from_end (n k : nat) :
  (1 <= k <= n)%nat -> norm_axis n (- Z.of_nat k) = Some (n - k)%nat.
Proof.
  intros H. unfold norm_axis.
  replace (0 <=? - Z.of_nat k) with false by (symmetry; apply Z.leb_gt; lia).
  cbn [andb].
  replace (- Z.of_nat n <=? - Z.of_nat k) with true by (symmetry; apply Z.leb_le; lia).
  replace (- Z.of_nat k <? 0) with true by (symmetry; apply Z.ltb_lt; lia).
  cbn [andb]. f_equal. lia.
Qed.

Lemma norm_axis_m1 (n : nat) : (1 <= n)%nat -> norm_axis n (-1) = Some (n - 1)%nat.
Proof. intros H. apply (norm_axis_from_end n 1). lia. Qed.

Lemma norm_axis_m2 (n : nat) : (2 <= n)%nat -> norm_axis n (-2) = Some (n - 2)%nat.
Proof. intros H. apply (norm_axis_from_end n 2). lia. Qed.

Lemma norm_axis_m3 (n : nat) : (3 <= n)%nat -> norm_axis n (-3) = Some (n - 3)%nat.
Proof. intros H. apply (norm_axis_from_end n 3). lia. Qed.

Lemma remove_at_app {T} (pre l : list T) (k : nat) :
  remove_at (length pre + k) (pre ++ l) = pre ++ remove_at k l.
Proof.
  unfold remove_at. induction pre as [ | x pre IH]; [reflexivity | ].
  cbn [length Nat.add app firstn skipn]. cbn [skipn] in IH. now rewrite IH.
Qed.

Lemma insert_at_app {T} (pre l : list T) (k : nat) (x : T) :
  insert_at (length pre + k) x (pre ++ l) = pre ++ insert_at k x l.
Proof.
  unfold insert_at. induction pre as [ | y pre IH]; [reflexivity | ].
  cbn [length Nat.add app firstn skipn]. now rewrite IH.
Qed.

Lemma nth_error_app_at {T} (pre l : list T) (k : nat) :
  nth_error (pre ++ l) (length pre + k) = nth_error l k.
Proof.
  rewrite nth_error_app2 by lia. f_equal. lia.
Qed.

Lemma move_app {T} (pre l : list T) (s d : nat) :
  (s < length l)%nat ->
  move (length pre + s) (length pre + d) (pre ++ l) = pre ++ move s d l.
Proof.
  intros H. unfold move. rewrite nth_error_app_at.
  destruct (nth_error l s) as [x | ] eqn:E; [ | apply nth_error_None in E; lia].
  now rewrite remove_at_app, insert_at_app.
Qed.

Lemma move_to_back {T} (pre : list T) (a b c : T) :
  move (length pre) (length pre + 2) (pre ++ [a; b; c]) = pre ++ [b; c; a].
Proof.
  rewrite <- (Nat.add_0_r (length pre)) at 1.
  rewrite move_app by (cbn; lia). reflexivity.
Qed.

Lemma move_to_front {T} (pre : list T) (a b c : T) :
  move (length pre + 2) (length pre) (pre ++ [b; c; a]) = pre ++ [a; b; c].
Proof.
  rewrite <- (Nat.add_0_r (length pre)) at 2.
  rewrite move_app by (cbn; lia). reflexivity.
Qed.

Lemma swap_dims_app (pre : list nat) (a b c : nat) :
  swap_dims (pre ++ [a; b; c]) = Ok (pre ++ [b; c; a]).
Proof.
  unfold swap_dims, py_nth, py_drop_last.
  rewrite length_app. cbn [length].
  rewrite norm_axis_m2, norm_axis_m1, norm_axis_m3 by lia.
  rewrite !nth_error_app2 by lia.
  replace (length pre + 3 - 2 - length pre)%nat with 1%nat by lia.
  replace (length pre + 3 - 1 - length pre)%nat with 2%nat by lia.
  replace (length pre + 3 - 3 - length pre)%nat with 0%nat by lia.
  cbn [nth_error of_option bind].
  replace (length pre + 3 - 3)%nat with (length pre) by lia.
  rewrite firstn_app, Nat.sub_diag, firstn_all. cbn [firstn]. now rewrite app_nil_r.
Qed.

Lemma moveaxis_to_back {T} (x : Array T) (pre : list nat) (a b c : nat) :
  shape x = pre ++ [a; b; c] ->
  moveaxis x (-3) (-1) =
  Ok (mkArray (pre ++ [b; c; a])
        (fun idx => elt x (move (length pre + 2) (length pre) idx))).
Proof.
  intros S. unfold moveaxis. rewrite S, length_app. cbn [length].
  rewrite norm_axis_m3, norm_axis_m1 by lia.
  replace (length pre + 3 - 3)%nat with (length pre) by lia.
  replace (length pre + 3 - 1)%nat with (length pre + 2)%nat by lia.
  now rewrite move_to_back.
Qed.

Lemma moveaxis_to_front {T} (x : Array T) (pre : list nat) (a b c : nat) :
  shape x = pre ++ [b; c; a] ->
  moveaxis x (-1) (-3) =
  Ok (mkArray (pre ++ [a; b; c])
        (fun idx => elt x (move (length pre) (length pre + 2) idx))).
Proof.
  intros S. unfold moveaxis. rewrite S, length_app. cbn [length].
  rewrite norm_axis_m3, norm_axis_m1 by lia.
  replace (length pre + 3 - 3)%nat with (length pre) by lia.
  replace (length pre + 3 - 1)%nat with (length pre + 2)%nat by lia.
  now rewrite move_to_front.
Qed.

(** X1.  The cache is laid out as the step is moved: for an array of rank
    3 or more the shape that [swap_dims] computes is the shape of the
    array after [moveaxis(x, -3, -1)], the axis third from the end having
    gone last; below rank 3 [swap_dims] raises the index error. *)
Theorem X1_swap_dims_is_moveaxis {T : Type} (x : Array T) :
  ((3 <= length (shape x))%nat ->
   exists pre a b c moved,
     shape x = pre ++ [a; b; c] /\
     moveaxis x (-3) (-1) = Ok moved /\
     swap_dims (shape x) = Ok (shape moved) /\
     shape moved = pre ++ [b; c; a]) /\
  ((length (shape x) < 3)%nat -> swap_dims (shape x) = Err IndexError).
Proof.
  split.
  - intros H. destruct (split_last3 (shape x) H) as (pre & a & b & c & S).
    exists pre, a, b, c. eexists.
    split; [exact S | ].
    split; [apply (moveaxis_to_back x pre a b c S) | ].
    split; [rewrite S; apply swap_dims_app | reflexivity].
  - intros H. destruct (shape x) as [ | a [ | b [ | c l]]]; cbn [length] in H;
      [reflexivity | reflexivity | reflexivity | lia].
Qed.

(** X2.  The two moves of a decode step undo each other: an array of rank
    3 or more, moved to the time-last layout by [moveaxis(x, -3, -1)] and
    back by [moveaxis(., -1, -3)], is the array itself. *)
Theorem X2_moveaxis_round_trip {T : Type} (x : Array T) :
  (3 <= length (shape x))%nat ->
  exists moved back,
    moveaxis x (-3) (-1) = Ok moved /\
    moveaxis moved (-1) (-3) = Ok back /\
    array_eq back x.
Proof.
  intros H. destruct (split_last3 (shape x) H) as (pre & a & b & c & S).
  eexists. eexists.
  split; [apply (moveaxis_to_back x pre a b c S) | ].
  split; [apply moveaxis_to_front; reflexivity | ].
  split; [cbn [shape]; now rewrite S | ].
  cbn [shape elt]. intros idx Hin.
  assert (Hlen : length idx = (length pre + 3)%nat).
  { unfold in_bounds in Hin. apply Forall2_length in Hin.
    rewrite Hin, length_app. reflexivity. }
  destruct (split_last3 idx ltac:(lia)) as (p & i & j & k & ->).
  rewrite length_app in Hlen. cbn [length] in Hlen.
  replace (length pre) with (length p) by lia.
  now rewrite move_to_back, move_to_front.
Qed.

Lemma X2_moveaxis_round_trip_witness :
  exists moved back,
    moveaxis Scenario.prompt (-3) (-1) = Ok moved /\
    moveaxis moved (-1) (-3) = Ok back /\
    array_eq back Scenario.prompt.
Proof.
  apply (X2_moveaxis_round_trip Scenario.prompt). cbn. lia.
Defined.

(* ------------------------------------------------------------------ *)
(** ** One decode call *)

(** X3.  A decode call of a single-token step writes by addition and into
    one slot: in cached key and value the slot of the cache index holds
    its former content plus the step, every other slot keeps its content,
    and the index is advanced by the int32 increment. *)
Theorem X3_scatter_adds_into_one_slot {A : Type} {D : DType A} (Laws : DTypeLaws A)
    (vars : CacheVars A) (s : Step A) (b h d len : nat) (ci : Z) :
  allocated vars b h d len ci ->
  single_token b h d len s ->
  exists vars1 dec,
    autoregressive_cache vars (step_query s) (step_key s) (step_value s)
      (step_mask s) None = Ok (vars1, dec) /\
    cache_index vars1 = Some (int32_add ci 1) /\
    (forall i j k t, (i < b)%nat -> (j < h)%nat -> (k < d)%nat -> (t < len)%nat ->
       (Z.of_nat t = ci ->
        key_elt vars1 [i; j; k; t]
        = dadd (key_elt vars [i; j; k; t]) (elt (step_key s) [i; 0%nat; j; k]) /\
        value_elt vars1 [i; j; k; t]
        = dadd (value_elt vars [i; j; k; t]) (elt (step_value s) [i; 0%nat; j; k])) /\
       (Z.of_nat t <> ci ->
        key_elt vars1 [i; j; k; t] = key_elt vars [i; j; k; t] /\
        value_elt vars1 [i; j; k; t] = value_elt vars [i; j; k; t])).
Proof.
  intros Hal Hs.
  destruct (decode_call_ok vars s b h d len ci Hal Hs)
    as (vars1 & dec & E & (ck1 & cv1 & _ & _ & Hci1 & _) & Vk & Vv).
  exists vars1, dec. split; [exact E | ]. split; [exact Hci1 | ].
  intros i j k t Hi Hj Hk Ht.
  rewrite (Vk i j k t Hi Hj Hk Ht), (Vv i j k t Hi Hj Hk Ht).
  split; intros Ht'.
  - apply Z.eqb_eq in Ht'. rewrite Ht'. split; reflexivity.
  - apply Z.eqb_neq in Ht'. rewrite Ht'. split; reflexivity.
Qed.

Lemma X3_scatter_adds_into_one_slot_witness :
  exists vars1 dec,
    autoregressive_cache Rewound.cache (step_query (Scenario.token 1 0))
      (step_key (Scenario.token 1 0)) (step_value (Scenario.token 1 0))
      (step_mask (Scenario.token 1 0)) None = Ok (vars1, dec) /\
    cache_index vars1 = Some (int32_add 0 1) /\
    (forall i j k t, (i < 1)%nat -> (j < 1)%nat -> (k < 2)%nat -> (t < 2)%nat ->
       (Z.of_nat t = 0 ->
        key_elt vars1 [i; j; k; t]
        = dadd (key_elt Rewound.cache [i; j; k; t])
               (elt (step_key (Scenario.token 1 0)) [i; 0%nat; j; k]) /\
        value_elt vars1 [i; j; k; t]
        = dadd (value_elt Rewound.cache [i; j; k; t])
               (elt (step_value (Scenario.token 1 0)) [i; 0%nat; j; k])) /\
       (Z.of_nat t <> 0 ->
        key_elt vars1 [i; j; k; t] = key_elt Rewound.cache [i; j; k; t] /\
        value_elt vars1 [i; j; k; t] = value_elt Rewound.cache [i; j; k; t])).
Proof.
  apply (X3_scatter_adds_into_one_slot Z_laws Rewound.cache (Scenario.token 1 0) 1 1 2 2 0).
  - eexists. eexists. repeat split; reflexivity.
  - repeat constructor.
Defined.

(** The slot is not overwritten: the step [1, 0] sent again at index 0
    leaves 2 where the cache held 1. *)
Example scatter_adds_run :
  match autoregressive_cache Rewound.cache (step_query (Scenario.token 1 0))
          (step_key (Scenario.token 1 0)) (step_value (Scenario.token 1 0))
          None None with
  | Ok (vars1, dec) => (option_map to_list (cached_key vars1), to_rows (d_key dec))
  | Err _ => (None, [])
  end = (Some [2; 0; 0; 0], [[2; 0]; [0; 0]]).
Proof. vm_compute. reflexivity. Qed.

Lemma concat_elt_values {A : Type} {D : DType A} (b h d len : nat) (steps : list (Step A)) :
  Forall (single_token b h d len) steps ->
  forall t s i j k, nth_error steps t = Some s ->
  concat_elt (map step_value steps) i t j k = elt (step_value s) [i; 0%nat; j; k].
Proof.
  induction 1 as [ | x rest (_ & _ & Sv & _) _ IH]; intros t s i j k E.
  - destruct t; discriminate E.
  - cbn [map concat_elt]. rewrite Sv. cbn [nth]. destruct t as [ | t].
    + cbn in E. injection E as <-. reflexivity.
    + cbn [nth_error] in E. cbn [Nat.ltb Nat.leb]. rewrite Nat.sub_succ, Nat.sub_0_r.
      now apply IH.
Qed.

Lemma concat_length_values {A : Type} (b h d len : nat) (steps : list (Step A)) :
  Forall (single_token b h d len) steps ->
  list_sum (map (fun x => nth 1 (shape x) 0%nat) (map step_value steps)) = length steps.
Proof.
  induction 1 as [ | x rest (_ & _ & Sv & _) _ IH]; [reflexivity | ].
  unfold list_sum in *. cbn [map length fold_right]. rewrite Sv, IH. reflexivity.
Qed.

(** X4.  What C1 says of the keys holds of the values: after the decode
    calls of a session that fills a fresh cache, the cached value, moved
    back to the natural layout, is the concatenation along the length axis
    of the values of the steps, in call order. *)
Theorem X4_sequential_values {A : Type} {D : DType A} (Laws : DTypeLaws A)
    (b h d : nat) (steps : list (Step A))
    (query0 key0 value0 : Array A) (mask0 bias0 : option (Array A)) :
  shape key0 = [b; length steps; h; d] ->
  shape value0 = [b; length steps; h; d] ->
  Forall (single_token b h d (length steps)) steps ->
  Z.of_nat (length steps) <= int32_max ->
  exists fresh dec0 final cv natural_value,
    autoregressive_cache no_cache query0 key0 value0 mask0 bias0 = Ok (fresh, dec0) /\
    decode_calls fresh steps = Ok final /\
    cached_value final = Some cv /\
    moveaxis cv (-1) (-3) = Ok natural_value /\
    array_eq natural_value (concatenate1 b h d (map step_value steps)).
Proof.
  intros Sk Sv Hst Hmax.
  pose proof (init_call query0 key0 value0 mask0 bias0 b (length steps) h d Sk Sv) as Ei.
  destruct (decode_calls_ok steps _ b h d (length steps) 0
              (init_allocated b h d (length steps)) Hst ltac:(lia) ltac:(lia))
    as (final & Ef & (ck & cv & Hck & Hcv & Hci & Sck & Scv) & Vf).
  eexists. eexists. exists final, cv. eexists.
  split; [exact Ei | ].
  split; [exact Ef | ].
  split; [exact Hcv | ].
  split; [apply (moveaxis_m1_m3 cv b h d (length steps) Scv) | ].
  split.
  - cbn [shape concatenate1]. now rewrite (concat_length_values b h d (length steps)).
  - cbn [shape]. intros idx Hin.
    apply in_bounds4 in Hin. destruct Hin as (i & t & j & k & -> & Hi & Ht & Hj & Hk).
    cbn [elt concatenate1 nth]. unfold move. cbn.
    destruct (nth_error steps t) as [s | ] eqn:E;
      [ | apply nth_error_None in E; lia].
    rewrite (concat_elt_values b h d (length steps) steps Hst t s i j k E).
    destruct (Vf i j k t Hi Hj Hk Ht) as (Vw & _).
    destruct (Vw t s E ltac:(lia)) as (_ & Vv).
    unfold value_elt in Vv. rewrite Hcv in Vv. cbn [cached_value elt zeros] in Vv.
    rewrite Vv. apply dadd_0_l.
Qed.

Lemma X4_sequential_values_witness :
  exists fresh dec0 final cv natural_value,
    autoregressive_cache no_cache Scenario.prompt Scenario.prompt Scenario.prompt
      None None = Ok (fresh, dec0) /\
    decode_calls fresh Scenario.steps = Ok final /\
    cached_value final = Some cv /\
    moveaxis cv (-1) (-3) = Ok natural_value /\
    array_eq natural_value (concatenate1 1 1 2 (map step_value Scenario.steps)).
Proof.
  apply (X4_sequential_values Z_laws 1 1 2 Scenario.steps
           Scenario.prompt Scenario.prompt Scenario.prompt None None).
  - reflexivity.
  - reflexivity.
  - repeat constructor.
  - vm_compute. discriminate.
Defined.

(** X5.  A step sent when the cache index has reached the capacity is lost
    to the attention: the key and the value that the call hands on, in the
    natural layout, are the content of the cache before the call, and
    without a mask of the caller every key position is open (bias 0). *)
Theorem X5_step_past_capacity_is_dropped {A : Type} {D : DType A} (Laws : DTypeLaws A)
    (vars : CacheVars A) (s : Step A) (b h d len : nat) (ci : Z) :
  allocated vars b h d len ci ->
  single_token b h d len s ->
  step_mask s = None ->
  Z.of_nat len <= ci ->
  exists vars1 dec ab,
    autoregressive_cache vars (step_query s) (step_key s) (step_value s)
      None None = Ok (vars1, dec) /\
    shape (d_key dec) = [b; len; h; d] /\
    shape (d_value dec) = [b; len; h; d] /\
    (forall i t j k, (i < b)%nat -> (t < len)%nat -> (j < h)%nat -> (k < d)%nat ->
       elt (d_key dec) [i; t; j; k] = key_elt vars [i; j; k; t] /\
       elt (d_value dec) [i; t; j; k] = value_elt vars [i; j; k; t]) /\
    compose_bias (d_mask dec) (d_bias dec) = Ok (Some ab) /\
    shape ab = [b; 1; 1; len]%nat /\
    (forall i t, (i < b)%nat -> (t < len)%nat -> elt ab [i; 0; 0; t]%nat = zero).
Proof.
  intros (ck & cv & Hck & Hcv & Hci & Sck & Scv) (Sq & Sk & Sv & _) _ Hge.
  destruct (decode_step vars ck cv ci (step_query s) (step_key s) (step_value s)
              b h d len Hck Hcv Hci Sck Scv Sq Sk Sv)
    as (ck1 & cv1 & key2 & value2 & causal & E & _ & _ & Vk & Vv & Sk2 & Sv2 & Nk & Nv & Sc & Vc).
  destruct (combine_masks_step None causal ci b len Sc Vc I)
    as (mask1 & mh & Em & Emh & Sm1 & Vm1).
  subst mh.
  rewrite (E None None), Em. cbn [bind step_bias].
  eexists. eexists. eexists.
  split; [reflexivity | ].
  cbn [d_key d_value d_mask d_bias compose_bias mask_to_bias].
  split; [exact Sk2 | ]. split; [exact Sv2 | ].
  split.
  - intros i t j k Hi Ht Hj Hk.
    rewrite Nk, Nv, (Vk i j k t Hi Hj Hk Ht), (Vv i j k t Hi Hj Hk Ht).
    unfold key_elt, value_elt. rewrite Hck, Hcv.
    replace (Z.of_nat t =? ci) with false by (symmetry; apply Z.eqb_neq; lia).
    cbn [of_bool]. now rewrite !dmul_0_r, !dadd_0_r.
  - split; [reflexivity | ]. split; [exact Sm1 | ].
    intros i t Hi Ht. cbn [elt select gt_zero full].
    rewrite (Vm1 i 0%nat t Hi ltac:(lia) Ht).
    replace (Z.of_nat t <=? ci) with true by (symmetry; apply Z.leb_le; lia).
    cbn [andb of_bool]. now rewrite gt0_one.
Qed.

Lemma X5_step_past_capacity_is_dropped_witness :
  exists vars1 dec ab,
    autoregressive_cache Scenario.full_cache (step_query (Scenario.token 1 1))
      (step_key (Scenario.token 1 1)) (step_value (Scenario.token 1 1))
      None None = Ok (vars1, dec) /\
    shape (d_key dec) = [1; 2; 1; 2]%nat /\
    shape (d_value dec) = [1; 2; 1; 2]%nat /\
    (forall i t j k, (i < 1)%nat -> (t < 2)%nat -> (j < 1)%nat -> (k < 2)%nat ->
       elt (d_key dec) [i; t; j; k] = key_elt Scenario.full_cache [i; j; k; t] /\
       elt (d_value dec) [i; t; j; k] = value_elt Scenario.full_cache [i; j; k; t]) /\
    compose_bias (d_mask dec) (d_bias dec) = Ok (Some ab) /\
    shape ab = [1; 1; 1; 2]%nat /\
    (forall i t, (i < 1)%nat -> (t < 2)%nat -> elt ab [i; 0; 0; t]%nat = zero).
Proof.
  apply (X5_step_past_capacity_is_dropped Z_laws Scenario.full_cache
           (Scenario.token 1 1) 1 1 2 2 2).
  - eexists. eexists. repeat split; reflexivity.
  - repeat constructor.
  - reflexivity.
  - vm_compute. discriminate.
Defined.

(** X6.  The positions that a decode step may attend: at every key
    position up to the cache index, the one that the step has just written
    included, the composed bias is 0 wherever the mask of the caller allows
    the position, and everywhere when the caller gives no mask. *)
Theorem X6_positions_up_to_index_are_open {A : Type} {D : DType A} (Laws : DTypeLaws A)
    (vars : CacheVars A) (s : Step A) (b h d len : nat) (ci : Z) :
  allocated vars b h d len ci ->
  single_token b h d len s ->
  exists vars1 dec ab mh,
    autoregressive_cache vars (step_query s) (step_key s) (step_value s)
      (step_mask s) None = Ok (vars1, dec) /\
    compose_bias (d_mask dec) (d_bias dec) = Ok (Some ab) /\
    shape ab = [b; mh; 1%nat; len] /\
    (forall i j t, (i < b)%nat -> (j < mh)%nat -> (t < len)%nat ->
       Z.of_nat t <= ci ->
       match step_mask s with
       | Some m => truth (elt m (bcast_index (shape m) [i; j; 0%nat; t])) = true
       | None => True
       end ->
       elt ab [i; j; 0%nat; t] = zero).
Proof.
  intros Hal Hs.
  destruct (decode_attention_bias Laws vars s b h d len ci Hal Hs)
    as (vars1 & dec & ab & mh & E & Eb & _ & Sab & _ & Vab).
  exists vars1, dec, ab, mh.
  split; [exact E | ]. split; [exact Eb | ]. split; [exact Sab | ].
  intros i j t Hi Hj Ht Hle Hm. rewrite (Vab i j t Hi Hj Ht).
  replace (Z.of_nat t <=? ci) with true by (symmetry; apply Z.leb_le; lia).
  destruct (step_mask s) as [m | ]; [now rewrite Hm | reflexivity].
Qed.

Lemma X6_positions_up_to_index_are_open_witness :
  exists vars1 dec ab mh,
    autoregressive_cache Scenario.one_step_cache (step_query (Scenario.token 0 1))
      (step_key (Scenario.token 0 1)) (step_value (Scenario.token 0 1))
      (step_mask (Scenario.token 0 1)) None = Ok (vars1, dec) /\
    compose_bias (d_mask dec) (d_bias dec) = Ok (Some ab) /\
    shape ab = [1; mh; 1; 2]%nat /\
    (forall i j t, (i < 1)%nat -> (j < mh)%nat -> (t < 2)%nat ->
       Z.of_nat t <= 1 ->
       match step_mask (Scenario.token 0 1) with
       | Some m => truth (elt m (bcast_index (shape m) [i; j; 0%nat; t])) = true
       | None => True
       end ->
       elt ab [i; j; 0%nat; t] = zero).
Proof.
  apply (X6_positions_up_to_index_are_open Z_laws Scenario.one_step_cache
           (Scenario.token 0 1) 1 1 2 2 1).
  - eexists. eexists. repeat split; reflexivity.
  - repeat constructor.
Defined.

(** X7.  The decode calls need a cache of rank 4.  When the call that
    allocates the cache sees a key of another rank (3 at least), it
    succeeds, and every later decode call fails on the unpacking of the
    cache shape, whatever it is given. *)
Theorem X7_cache_of_other_rank {A : Type} {D : DType A}
    (query0 key0 value0 : Array A) (mask0 bias0 : option (Array A)) :
  (3 <= length (shape key0))%nat ->
  (3 <= length (shape value0))%nat ->
  length (shape key0) <> 4%nat ->
  exists fresh dec0,
    autoregressive_cache no_cache query0 key0 value0 mask0 bias0 = Ok (fresh, dec0) /\
    forall query key value mask bias,
      (3 <= length (shape key))%nat ->
      (3 <= length (shape value))%nat ->
      autoregressive_cache fresh query key value mask bias = Err UnpackError.
Proof.
  intros Rk Rv N4.
  destruct (split_last3 (shape key0) Rk) as (pre & a & b & c & Sk).
  destruct (swap_dims_ok _ Rv) as (vs & Evs).
  eexists. eexists. split.
  - unfold autoregressive_cache. rewrite Sk, swap_dims_app, Evs. reflexivity.
  - intros query key value mask bias Rk' Rv'.
    destruct (swap_dims_ok _ Rk') as (ks' & Eks').
    destruct (swap_dims_ok _ Rv') as (vs' & Evs').
    unfold autoregressive_cache. rewrite Eks', Evs'.
    cbn [bind cached_key cached_value cache_index has_variable variable shape zeros].
    rewrite Sk, length_app in N4. cbn [length] in N4.
    destruct pre as [ | p0 [ | p1 pre]]; cbn [app].
    + reflexivity.
    + cbn [length] in N4. lia.
    + destruct pre as [ | p2 [ | p3 [ | p4 pre]]]; reflexivity.
Qed.

Lemma X7_cache_of_other_rank_witness :
  exists fresh dec0,
    autoregressive_cache no_cache Unbatched.prompt Unbatched.prompt Unbatched.prompt
      None None = Ok (fresh, dec0) /\
    forall query key value mask bias,
      (3 <= length (shape key))%nat ->
      (3 <= length (shape value))%nat ->
      autoregressive_cache fresh query key value mask bias = Err UnpackError.
Proof.
  apply (X7_cache_of_other_rank Unbatched.prompt Unbatched.prompt Unbatched.prompt
           None None).
  - cbn. lia.
  - cbn. lia.
  - cbn. lia.
Defined.

(* ------------------------------------------------------------------ *)
(** ** Decode calls of the module *)

Lemma projected_shapes {A : Type} {D : DType A} (m : Models A) (self : Attention A)
    (inputs_q inputs_kv : Array A) (pos : option (Array Z))
    (bq lq fq b len f : nat) :
  ShapeContracts m ->
  shape inputs_q = [bq; lq; fq] ->
  shape inputs_kv = [b; len; f] ->
  exists query key value,
    project_qkv m self inputs_q inputs_kv pos = (query, key, value) /\
    shape query = [bq; lq; num_heads self; head_dim self] /\
    shape key = [b; len; num_heads self; head_dim self] /\
    shape value = [b; len; num_heads self; head_dim self].
Proof.
  intros C Sq Skv. eexists. eexists. eexists.
  split; [reflexivity | ].
  unfold checkpoint_name, with_logical_constraint.
  rewrite !(rotary_shape m C), !(dense_shape m C), Sq, Skv.
  repeat split; reflexivity.
Qed.

Lemma dropout_rng_drawn {A : Type} (self : Attention A) (rngs : Rngs) (det : bool) :
  det = true \/ Qle_bool (dropout_rate self) 0 = true
    \/ rngs "dropout"%string <> None ->
  exists rng, draw_dropout_rng self rngs det = Ok rng.
Proof.
  intros H. unfold draw_dropout_rng, make_rng.
  destruct det; [eexists; reflexivity | ].
  destruct (Qle_bool (dropout_rate self) 0); [eexists; reflexivity | ].
  cbn [negb andb].
  destruct H as [Hd | [Hd | Hd]]; try discriminate Hd.
  destruct (rngs "dropout"%string); [eexists; reflexivity | now elim Hd].
Qed.

Lemma output_shape {A : Type} (m : Models A) (self : Attention A)
    (inputs_q x : Array A) (bq lq fq : nat) :
  ShapeContracts m ->
  shape inputs_q = [bq; lq; fq] ->
  shape x = [bq; lq; num_heads self; head_dim self] ->
  exists out,
    (features <- of_option IndexError (py_nth (shape inputs_q) (-1)) ;;
     Ok (DenseGeneral m [features] [-2; -1] (kernel_init self) "out"%string x))
    = Ok out /\
    shape out = [bq; lq; fq].
Proof.
  intros C Sq Sx. rewrite Sq. cbn [py_nth length]. 
  change (norm_axis 3 (-1)) with (Some 2%nat). cbn [nth_error of_option bind].
  eexists. split; [reflexivity | ].
  rewrite (dense_shape m C), Sx. reflexivity.
Qed.

(** X8.  The first decode call of the module, on inputs of rank 3 and with
    no cache yet: it allocates the key and value caches with the batch and
    the length of [inputs_kv] and the heads and head dimension of the
    module, zero-filled and in the time-last layout, sets the index to 0,
    checks nothing of the query, and returns an output of the shape of
    [inputs_q]. *)
Theorem X8_first_decode_call_allocates {A : Type} {D : DType A} (m : Models A)
    (self : Attention A) (rngs : Rngs) (inputs_q inputs_kv : Array A)
    (attention_type : string)
    (decoder_segment_ids inputs_positions : option (Array Z))
    (mask bias : option (Array A)) (deterministic : bool)
    (bq lq fq b len f : nat) :
  ShapeContracts m ->
  shape inputs_q = [bq; lq; fq] ->
  shape inputs_kv = [b; len; f] ->
  mask = None \/ bias = None ->
  deterministic = true \/ Qle_bool (dropout_rate self) 0 = true
    \/ rngs "dropout"%string <> None ->
  exists out,
    attention_call m self no_cache rngs inputs_q inputs_kv attention_type
      decoder_segment_ids inputs_positions mask bias true deterministic
    = Ok (out,
          mkCache (Some (zeros [b; num_heads self; head_dim self; len]))
                  (Some (zeros [b; num_heads self; head_dim self; len]))
                  (Some 0)) /\
    shape out = [bq; lq; fq].
Proof.
  intros C Sq Skv Hmb Hrng.
  destruct (projected_shapes m self inputs_q inputs_kv inputs_positions
              bq lq fq b len f C Sq Skv) as (query & key & value & Ep & SQ & SK & SV).
  unfold attention_call. rewrite Ep.
  rewrite (init_call query key value mask bias b len (num_heads self) (head_dim self) SK SV).
  cbn [bind d_mask d_bias d_key d_value].
  assert (Eb : exists ab, compose_bias mask bias = Ok ab).
  { destruct Hmb as [-> | ->]; unfold compose_bias; cbn [mask_to_bias].
    - destruct bias; cbn; eexists; reflexivity.
    - eexists; reflexivity. }
  destruct Eb as (ab & ->). cbn [bind].
  destruct (dropout_rng_drawn self rngs deterministic Hrng) as (rng & ->). cbn [bind].
  unfold with_logical_constraint.
  destruct (output_shape m self inputs_q
              (apply_attention m query key value attention_type decoder_segment_ids
                 ab rng deterministic true) bq lq fq C Sq)
    as (out & Eo & So).
  { now rewrite (attention_shape m C). }
  revert Eo. destruct (of_option IndexError (py_nth (shape inputs_q) (-1))) as [features | e];
    cbn [bind]; [ | discriminate].
  intros Eo. injection Eo as <-. eexists. split; [reflexivity | exact So].
Qed.

Lemma X8_first_decode_call_allocates_witness :
  exists out,
    attention_call Toy.models Toy.self_attention no_cache Toy.no_rngs
      ToyDecode.prompt ToyDecode.prompt "dot_product" None None None None true true
    = Ok (out,
          mkCache (Some (zeros [1; num_heads Toy.self_attention;
                                head_dim Toy.self_attention; 2]%nat))
                  (Some (zeros [1; num_heads Toy.self_attention;
                                head_dim Toy.self_attention; 2]%nat))
                  (Some 0)) /\
    shape out = [1; 2; 1]%nat.
Proof.
  apply (X8_first_decode_call_allocates Toy.models Toy.self_attention Toy.no_rngs
           ToyDecode.prompt ToyDecode.prompt "dot_product" None None None None true
           1 2 1 1 2 1).
  - exact toy_contracts.
  - reflexivity.
  - reflexivity.
  - now left.
  - now left.
Defined.

Lemma decode_refused {A : Type} {D : DType A} (vars : CacheVars A) (ck : Array A)
    (b h d len : nat) (query key value : Array A) (mask bias : option (Array A)) :
  cached_key vars = Some ck ->
  shape ck = [b; h; d; len] ->
  (3 <= length (shape key))%nat ->
  (3 <= length (shape value))%nat ->
  shape query <> [b; 1%nat; h; d] ->
  autoregressive_cache vars query key value mask bias = Err CacheShapeError.
Proof.
  intros Hck Sck Rk Rv Sq.
  destruct (swap_dims_ok _ Rk) as (ks & Eks).
  destruct (swap_dims_ok _ Rv) as (vs & Evs).
  unfold autoregressive_cache.
  rewrite Hck, Eks, Evs. cbn [bind has_variable variable]. rewrite Sck.
  destruct (list_eq_dec Nat.eq_dec [b; 1%nat; h; d] (shape query)) as [E | _];
    [now rewrite <- E in Sq | reflexivity].
Qed.

Lemma module_decode_call {A : Type} {D : DType A} (m : Models A)
    (self : Attention A) (vars : CacheVars A) (rngs : Rngs) (x : Array A)
    (attention_type : string)
    (decoder_segment_ids inputs_positions : option (Array Z))
    (mask : option (Array A)) (deterministic : bool)
    (b len bx lx f : nat) (ci : Z) :
  ShapeContracts m ->
  allocated vars b (num_heads self) (head_dim self) len ci ->
  shape x = [bx; lx; f] ->
  mask_fits b len mask ->
  deterministic = true \/ Qle_bool (dropout_rate self) 0 = true
    \/ rngs "dropout"%string <> None ->
  (bx = b /\ lx = 1%nat ->
   exists out vars1,
     attention_call m self vars rngs x x attention_type decoder_segment_ids
       inputs_positions mask None true deterministic = Ok (out, vars1) /\
     shape out = [b; 1%nat; f] /\
     allocated vars1 b (num_heads self) (head_dim self) len (int32_add ci 1)) /\
  (bx <> b \/ lx <> 1%nat ->
   attention_call m self vars rngs x x attention_type decoder_segment_ids
     inputs_positions mask None true deterministic = Err CacheShapeError).
Proof.
  intros C (ck & cv & Hck & Hcv & Hci & Sck & Scv) Sx Hm Hrng.
  destruct (projected_shapes m self x x inputs_positions bx lx f bx lx f C Sx Sx)
    as (query & key & value & Ep & SQ & SK & SV).
  split.
  - intros (-> & ->).
    destruct (decode_step vars ck cv ci query key value b (num_heads self) (head_dim self)
                len Hck Hcv Hci Sck Scv SQ SK SV)
      as (ck1 & cv1 & key2 & value2 & causal & E & Sck1 & Scv1 & _ & _ & _ & _ & _ & _ & Sc & Vc).
    destruct (combine_masks_step mask causal ci b len Sc Vc Hm) as (mask1 & mh & Em & _).
    unfold attention_call. rewrite Ep, (E mask None), Em.
    cbn [bind step_bias d_mask d_bias d_key d_value compose_bias mask_to_bias].
    destruct (dropout_rng_drawn self rngs deterministic Hrng) as (rng & ->). cbn [bind].
    unfold with_logical_constraint.
    match goal with
    | |- context [apply_attention m ?q ?k ?v ?ty ?seg ?ab ?r ?dt ?dc] =>
        destruct (output_shape m self x (apply_attention m q k v ty seg ab r dt dc)
                    b 1 f C Sx) as (out & Eo & So);
          [now rewrite (attention_shape m C) | ]
    end.
    revert Eo. destruct (of_option IndexError (py_nth (shape x) (-1))) as [features | e];
      cbn [bind]; [ | discriminate].
    intros Eo. injection Eo as <-. eexists. eexists.
    split; [reflexivity | ]. split; [exact So | ].
    exists ck1, cv1. repeat split; assumption.
  - intros Hne. unfold attention_call. rewrite Ep.
    rewrite (decode_refused vars ck b (num_heads self) (head_dim self) len
               query key value mask None Hck Sck).
    + reflexivity.
    + rewrite SK. cbn. lia.
    + rewrite SV. cbn. lia.
    + rewrite SQ. intros E. injection E as -> ->. destruct Hne as [N | N]; now elim N.
Qed.

(** X9.  A decode call of the module in self-attention, on a cache
    allocated for the heads and the head dimension of the module: an input
    of shape (batch, 1, features) is accepted, the output has its shape
    and the cache keeps its shape while the index advances; an input of
    another batch or of another length is refused with the cache shape
    error. *)
Theorem X9_decode_call_of_the_module {A : Type} {D : DType A} (m : Models A)
    (self : Attention A) (vars : CacheVars A) (rngs : Rngs) (x : Array A)
    (attention_type : string)
    (decoder_segment_ids inputs_positions : option (Array Z))
    (mask : option (Array A)) (deterministic : bool)
    (b len bx lx f : nat) (ci : Z) :
  ShapeContracts m ->
  allocated vars b (num_heads self) (head_dim self) len ci ->
  shape x = [bx; lx; f] ->
  mask_fits b len mask ->
  deterministic = true \/ Qle_bool (dropout_rate self) 0 = true
    \/ rngs "dropout"%string <> None ->
  (bx = b /\ lx = 1%nat ->
   exists out vars1,
     attention_call m self vars rngs x x attention_type decoder_segment_ids
       inputs_positions mask None true deterministic = Ok (out, vars1) /\
     shape out = [b; 1%nat; f] /\
     allocated vars1 b (num_heads self) (head_dim self) len (int32_add ci 1)) /\
  (bx <> b \/ lx <> 1%nat ->
   attention_call m self vars rngs x x attention_type decoder_segment_ids
     inputs_positions mask None true deterministic = Err CacheShapeError).
Proof.
  intros C Hal Sx Hm Hrng.
  exact (module_decode_call m self vars rngs x attention_type decoder_segment_ids
           inputs_positions mask deterministic b len bx lx f ci C Hal Sx Hm Hrng).
Qed.

Lemma X9_decode_call_of_the_module_witness :
  (1%nat = 1%nat /\ 1%nat = 1%nat ->
   exists out vars1,
     attention_call Toy.models Toy.self_attention ToyDecode.cache Toy.no_rngs
       Toy.inputs Toy.inputs "dot_product" None None None None true true
     = Ok (out, vars1) /\
     shape out = [1; 1; 1]%nat /\
     allocated vars1 1 (num_heads Toy.self_attention) (head_dim Toy.self_attention) 2
       (int32_add 0 1)) /\
  (1%nat <> 1%nat \/ 1%nat <> 1%nat ->
   attention_call Toy.models Toy.self_attention ToyDecode.cache Toy.no_rngs
     Toy.inputs Toy.inputs "dot_product" None None None None true true
   = Err CacheShapeError).
Proof.
  apply (X9_decode_call_of_the_module Toy.models Toy.self_attention ToyDecode.cache
           Toy.no_rngs Toy.inputs "dot_product" None None None true 1 2 1 1 1 0).
  - exact toy_contracts.
  - eexists. eexists. repeat split; reflexivity.
  - reflexivity.
  - exact I.
  - now left.
Defined.

(** The prompt of two positions, sent again as a decode call, is refused. *)
Example decode_refuses_prompt_run :
  attention_call Toy.models Toy.self_attention ToyDecode.cache Toy.no_rngs
    ToyDecode.prompt ToyDecode.prompt "dot_product" None None None None true true
  = Err CacheShapeError.
Proof. reflexivity. Qed.



(* ------------------------------------------------------------------ *)
(** ** The feed-forward block and the layer *)

Lemma broadcast_rev_same (l : list nat) : broadcast_rev l l = Some l.
Proof.
  induction l as [ | a l IH]; [reflexivity | ].
  cbn [broadcast_rev]. now rewrite bdim_same, IH.
Qed.

Lemma broadcast_same (s : list nat) : broadcast_shapes s s = Some s.
Proof.
  unfold broadcast_shapes. rewrite broadcast_rev_same. cbn [option_map].
  now rewrite rev_involutive.
Qed.

Lemma binop_same_shape {T U V} (f : T -> U -> V) (x : Array T) (y : Array U)
    (s : list nat) :
  shape x = s -> shape y = s ->
  exists r, binop f x y = Ok r /\ shape r = s.
Proof.
  intros Sx Sy. unfold binop. rewrite Sx, Sy, broadcast_same.
  eexists. split; reflexivity.
Qed.

Lemma fold_mul_shape {A : Type} {D : DType A} (s : list nat) (rest : list (Array A)) :
  Forall (fun a => shape a = s) rest ->
  forall acc, shape acc = s ->
  exists r,
    fold_left (fun acc y => a <- acc ;; mul a y) rest (Ok acc) = Ok r /\ shape r = s.
Proof.
  induction 1 as [ | y rest Sy _ IH]; intros acc Sa.
  - exists acc. split; [reflexivity | exact Sa].
  - cbn [fold_left bind].
    destruct (binop_same_shape dmul acc y s Sa Sy) as (r & Er & Sr).
    unfold mul. rewrite Er. now apply IH.
Qed.

Lemma table_shape {T U} (f : nat * T -> Array U) (s : list nat) (l : list T) :
  (forall p, shape (f p) = s) ->
  forall n, Forall (fun a => shape a = s) (map f (combine (seq n (length l)) l)).
Proof.
  intros Hf. induction l as [ | x l IH]; intros n; cbn [length seq combine map].
  - constructor.
  - constructor; [apply Hf | apply IH].
Qed.

Lemma drop_last_restore (s : list nat) (dim f : nat) :
  py_nth s (-1) = Some f ->
  py_drop_last 1 (py_drop_last 1 s ++ [dim]) ++ [f] = s.
Proof.
  intros H. change 1%nat with (length [dim]) at 1.
  rewrite py_drop_last_app. now apply py_last_restore.
Qed.

Lemma mlp_call_ok {A : Type} {D : DType A} (m : Models A) (self : MlpBlock A)
    (rngs : Rngs) (inputs : Array A) (decode deterministic : bool) :
  LayerContracts m ->
  shape inputs <> [] ->
  activations self <> [] ->
  exists out,
    mlp_call m self rngs inputs decode deterministic = Ok out /\
    shape out = shape inputs.
Proof.
  intros C Hin Hact.
  pose proof (layer_shapes m C) as CS.
  assert (Hf : exists f, py_nth (shape inputs) (-1) = Some f).
  { apply (py_nth_from_end (shape inputs) 1).
    destruct (shape inputs); [now elim Hin | cbn [length]; lia]. }
  destruct Hf as (f & Ef).
  set (s := py_drop_last 1 (shape inputs) ++ [intermediate_dim self]).
  unfold mlp_call.
  match goal with
  | |- context [reduce_mul (map ?g ?l)] =>
      assert (Hall : Forall (fun a => shape a = s) (map g l))
  end.
  { apply table_shape. intros (idx, act_fn).
    now rewrite (activation_shape m C), (dense_shape m CS). }
  match type of Hall with
  | Forall _ ?acts => destruct acts as [ | x rest] eqn:Eacts
  end.
  { destruct (activations self) as [ | a l]; [now elim Hact | discriminate Eacts]. }
  inversion Hall as [ | ? ? Sx Srest]; subst.
  destruct (fold_mul_shape s rest Srest x Sx) as (r & Er & Sr).
  cbn [reduce_mul]. rewrite Er. cbn [bind].
  unfold with_logical_constraint.
  match goal with
  | |- context [mul ?a ?b] =>
      destruct (binop_same_shape dmul a b s) as (r2 & Er2 & Sr2)
  end.
  { now rewrite (dropout_shape m C). }
  { now rewrite (dense_shape m CS). }
  unfold mul. rewrite Er2. cbn [bind]. rewrite Ef. cbn [of_option bind].
  eexists. split; [reflexivity | ].
  rewrite (dense_shape m CS), (dropout_shape m C), Sr2.
  apply drop_last_restore. exact Ef.
Qed.

(** X11.  The feed-forward block.  With no activation it raises a type
    error, the product of the gates having nothing to reduce; with one
    activation or more, and collaborators that respect the shape
    contracts, it returns, and its output has the shape of its input. *)
Theorem X11_mlp_block {A : Type} {D : DType A} (m : Models A) (self : MlpBlock A)
    (rngs : Rngs) (inputs : Array A) (decode deterministic : bool) :
  LayerContracts m ->
  shape inputs <> [] ->
  (activations self = [] ->
   mlp_call m self rngs inputs decode deterministic = Err TypeError) /\
  (activations self <> [] ->
   exists out,
     mlp_call m self rngs inputs decode deterministic = Ok out /\
     shape out = shape inputs).
Proof.
  intros C Hin. split.
  - intros E. unfold mlp_call. rewrite E. reflexivity.
  - intros Hact. now apply mlp_call_ok.
Qed.

Lemma toy_layer_contracts : LayerContracts Toy.models.
Proof. constructor; try reflexivity. exact toy_contracts. Qed.

Lemma X11_mlp_block_witness :
  (activations ToyMlp.gated = [] ->
   mlp_call Toy.models ToyMlp.gated Toy.no_rngs Toy.inputs false true = Err TypeError) /\
  (activations ToyMlp.gated <> [] ->
   exists out,
     mlp_call Toy.models ToyMlp.gated Toy.no_rngs Toy.inputs false true = Ok out /\
     shape out = shape Toy.inputs).
Proof.
  apply (X11_mlp_block Toy.models ToyMlp.gated Toy.no_rngs Toy.inputs false true).
  - exact toy_layer_contracts.
  - discriminate.
Defined.

(** The two gates and the up projection multiply: 3 * 3 * 3 on the input
    3; and the block without activations fails. *)
Example mlp_run :
  (match mlp_call Toy.models ToyMlp.gated Toy.no_rngs Toy.inputs false true with
   | Ok out => to_list out
   | Err _ => []
   end,
   match mlp_call Toy.models ToyMlp.empty Toy.no_rngs Toy.inputs false true with
   | Ok _ => None
   | Err e => Some e
   end) = ([27], Some TypeError).
Proof. vm_compute. reflexivity. Qed.

Lemma priming_call_ok {A : Type} {D : DType A} (m : Models A) (self : Attention A)
    (vars : CacheVars A) (rngs : Rngs) (x : Array A) (attention_type : string)
    (seg pos : option (Array Z)) (mask : option (Array A)) (det : bool)
    (b l f : nat) :
  ShapeContracts m ->
  shape x = [b; l; f] ->
  det = true \/ Qle_bool (dropout_rate self) 0 = true
    \/ rngs "dropout"%string <> None ->
  exists out,
    attention_call m self vars rngs x x attention_type seg pos mask None false det
    = Ok (out, vars) /\
    shape out = [b; l; f].
Proof.
  intros C Sx Hrng.
  destruct (projected_shapes m self x x pos b l f b l f C Sx Sx)
    as (query & key & value & Ep & SQ & SK & SV).
  unfold attention_call. rewrite Ep.
  cbn [bind d_mask d_bias d_key d_value compose_bias].
  destruct (dropout_rng_drawn self rngs det Hrng) as (rng & ->). cbn [bind].
  unfold with_logical_constraint.
  match goal with
  | |- context [apply_attention m ?q ?k ?v ?ty ?sg ?ab ?r ?dt ?dc] =>
      destruct (output_shape m self x (apply_attention m q k v ty sg ab r dt dc)
                  b l f C Sx) as (out & Eo & So);
        [now rewrite (attention_shape m C) | ]
  end.
  revert Eo. destruct (of_option IndexError (py_nth (shape x) (-1))) as [features | e];
    cbn [bind]; [ | discriminate].
  intros Eo. injection Eo as <-. eexists. split; [reflexivity | exact So].
Qed.


(** X12.  The decoder layer outside decoding, on inputs of shape (batch,
    length, embed) and with collaborators that respect the shape
    contracts: with one activation or more, and the dropout stream there
    when dropout is active, the layer returns, its output has the shape of
    its input, and the cache collection is the one it was given. *)
Theorem X12_decoder_layer_outside_decoding {A : Type} {D : DType A} (m : Models A)
    (cfg : Config) (vars : CacheVars A) (rngs : Rngs) (inputs : Array A)
    (decoder_segment_ids decoder_positions : option (Array Z))
    (decoder_mask : option (Array A)) (deterministic : bool)
    (max_decode_length b l f : nat) :
  LayerContracts m ->
  shape inputs = [b; l; f] ->
  cfg_mlp_activations cfg <> [] ->
  deterministic = true \/ Qle_bool (cfg_dropout_rate cfg) 0 = true
    \/ rngs "dropout"%string <> None ->
  exists o,
    decoder_layer_call m cfg vars rngs inputs decoder_segment_ids decoder_positions
      decoder_mask deterministic false max_decode_length = Ok (o, vars) /\
    shape (layer_output_of o) = [b; l; f].
Proof.
  intros C Sin Hact Hrng.
  pose proof (layer_shapes m C) as CS.
  unfold decoder_layer_call, with_logical_constraint.
  match goal with
  | |- context [attention_call m ?self vars rngs ?x ?x ?ty ?sg ?ps ?mk None false ?dt] =>
      destruct (priming_call_ok m self vars rngs x ty sg ps mk dt b l f CS)
        as (att & Ea & Sa);
        [now rewrite (rms_norm_shape m C) | exact Hrng | rewrite Ea]
  end.
  cbn [bind].
  destruct (binop_same_shape dadd inputs att [b; l; f] Sin Sa) as (hid & Eh & Sh).
  unfold add at 1. rewrite Eh. cbn [bind].
  match goal with
  | |- context [mlp_call m ?blk rngs ?x false deterministic] =>
      destruct (mlp_call_ok m blk rngs x false deterministic C) as (mo & Em & Sm);
        [rewrite (rms_norm_shape m C), Sin; discriminate | exact Hact | rewrite Em]
  end.
  cbn [bind]. rewrite (rms_norm_shape m C), Sin in Sm.
  destruct (binop_same_shape dadd mo hid [b; l; f] Sm Sh) as (lo & El & Sl).
  unfold add. rewrite El. cbn [bind].
  destruct (cfg_scan_layers cfg); eexists; (split; [reflexivity | ]);
    cbn [layer_output_of]; now rewrite (dropout_shape m C).
Qed.

Lemma X12_decoder_layer_outside_decoding_witness :
  exists o,
    decoder_layer_call Toy.models Toy.cfg no_cache Toy.no_rngs Toy.inputs
      None None None true false 1 = Ok (o, no_cache) /\
    shape (layer_output_of o) = [1; 1; 1]%nat.
Proof.
  apply (X12_decoder_layer_outside_decoding Toy.models Toy.cfg no_cache Toy.no_rngs
           Toy.inputs None None None true 1 1 1 1).
  - exact toy_layer_contracts.
  - reflexivity.
  - discriminate.
  - now left.
Defined.

(** X13.  [scan_layers] changes the wrapping of the result and nothing
    else: with the flag set and with the flag cleared the layer fails on
    the same inputs with the same error, or returns the same array and the
    same cache, as a pair with [None] in the first case and alone in the
    second. *)
Theorem X13_scan_layers_only_wraps {A : Type} {D : DType A} (m : Models A)
    (cfg : Config) (vars : CacheVars A) (rngs : Rngs) (inputs : Array A)
    (decoder_segment_ids decoder_positions : option (Array Z))
    (decoder_mask : option (Array A)) (deterministic decode : bool)
    (max_decode_length : nat) :
  match
    decoder_layer_call m (with_scan_layers cfg true) vars rngs inputs
      decoder_segment_ids decoder_positions decoder_mask deterministic decode
      max_decode_length,
    decoder_layer_call m (with_scan_layers cfg false) vars rngs inputs
      decoder_segment_ids decoder_positions decoder_mask deterministic decode
      max_decode_length
  with
  | Ok (o1, vars1), Ok (o2, vars2) =>
      exists layer_output,
        o1 = Scanned layer_output /\ o2 = Plain layer_output /\ vars1 = vars2
  | Err e1, Err e2 => e1 = e2
  | _, _ => False
  end.
Proof.
  unfold decoder_layer_call, with_scan_layers.
  cbn [cfg_num_heads cfg_head_dim cfg_dropout_rate cfg_mlp_dim cfg_mlp_activations
       cfg_attention cfg_scan_layers].
  destruct (attention_call _ _ _ _ _ _ _ _ _ _ _ _ _) as [(att, vars1) | e];
    cbn [bind]; [ | reflexivity].
  destruct (add _ _) as [hid | e]; cbn [bind]; [ | reflexivity].
  destruct (mlp_call _ _ _ _ _ _) as [mo | e]; cbn [bind]; [ | reflexivity].
  destruct (add _ _) as [lo | e]; cbn [bind]; [ | reflexivity].
  eexists. repeat split.
Qed.

(* ------------------------------------------------------------------ *)
(** ** train_compile.py: validation and saving *)

(** X14.  [validate_config] accepts a configuration exactly when its
    [compile_topology] is not the empty string and its
    [compile_topology_num_slices] is positive; an empty topology is
    reported first, with its own message, and a topology with a number of
    slices that is not positive is reported with the other. *)
Theorem X14_validate_config {R : Type} (config : TrainCompile.Config R) :
  (TrainCompile.validate_config config = TrainCompile.Done tt <->
   TrainCompile.compile_topology config <> EmptyString /\
   0 < TrainCompile.compile_topology_num_slices config) /\
  (TrainCompile.compile_topology config = EmptyString ->
   TrainCompile.validate_config config
   = TrainCompile.Raise (TrainCompile.AssertionError TrainCompile.topology_message)) /\
  (TrainCompile.compile_topology config <> EmptyString ->
   TrainCompile.compile_topology_num_slices config <= 0 ->
   TrainCompile.validate_config config
   = TrainCompile.Raise (TrainCompile.AssertionError TrainCompile.slices_message)).
Proof.
  unfold TrainCompile.validate_config.
  destruct (String.eqb_spec (TrainCompile.compile_topology config) EmptyString) as [E | N].
  - split; [split | split].
    + discriminate.
    + intros (N & _). now elim N.
    + reflexivity.
    + intros N. now elim N.
  - destruct (Z.ltb_spec 0 (TrainCompile.compile_topology_num_slices config)) as [P | P].
    + split; [split | split].
      * intros _. split; assumption.
      * reflexivity.
      * intros E. now elim N.
      * intros _ Q. lia.
    + split; [split | split].
      * discriminate.
      * intros (_ & Q). lia.
      * intros E. now elim N.
      * reflexivity.
Qed.

(** X15.  When the configuration that [main] has read does not pass
    [validate_config], the program stops there with the assertion error:
    it has printed its first line and nothing more, and no file has been
    written. *)
Theorem X15_main_stops_at_invalid_config (E : TrainCompile.Env) (argv : list string)
    (w : TrainCompile.World (TrainCompile.Bytes E))
    (config : TrainCompile.Config (TrainCompile.Rest E)) (e : TrainCompile.exn) :
  TrainCompile.initialize E argv = TrainCompile.Done config ->
  TrainCompile.validate_config config = TrainCompile.Raise e ->
  TrainCompile.main E argv w
  = (TrainCompile.mkWorld
       (TrainCompile.stdout w ++ ["Starting train_compile.py..."%string])
       (TrainCompile.files w),
     TrainCompile.Raise e).
Proof.
  intros Ei Ev. unfold TrainCompile.main, TrainCompile.bindr, TrainCompile.print,
    TrainCompile.call.
  rewrite Ei, Ev. reflexivity.
Qed.

Lemma X15_main_stops_at_invalid_config_witness :
  TrainCompile.main TrainCompile.toy_env [EmptyString; "step.pickle"%string]
    TrainCompile.empty_world
  = (TrainCompile.mkWorld
       (TrainCompile.stdout TrainCompile.empty_world
        ++ ["Starting train_compile.py..."%string])
       (TrainCompile.files TrainCompile.empty_world),
     TrainCompile.Raise (TrainCompile.AssertionError TrainCompile.topology_message)).
Proof.
  apply (X15_main_stops_at_invalid_config TrainCompile.toy_env
           [EmptyString; "step.pickle"%string] TrainCompile.empty_world
           (TrainCompile.mkConfig EmptyString 1 "step.pickle" [] tt)).
  - reflexivity.
  - reflexivity.
Defined.

(** One step of a run of [main]: the case analysis on the outcome of the
    next collaborator, on a tuple it returned, or on the test of the file
    name. *)
Ltac next_outcome H :=
  match type of H with
  | context [match ?o with TrainCompile.Done _ => _ | TrainCompile.Raise _ => _ end] =>
      let x := fresh "x" in
      let Eo := fresh "Eo" in
      destruct o as [x | ?] eqn:Eo; cbn beta iota in H
  | context [match ?p with pair _ _ => _ end] =>
      is_var p; destruct p; cbn beta iota in H
  | context [if negb ?b then _ else _] =>
      let Eb := fresh "Eb" in
      destruct b eqn:Eb; cbn [negb] in H; cbn beta iota in H
  end.

(** X16.  A run of [main] that ends without an exception has read a
    configuration that passes [validate_config], and has written a file
    exactly when [compiled_trainstep_file] is not the empty string: then
    the file of that name holds the pickled serialization of the compiled
    step and every other file is as before, and the lines printed are the
    six of a save; otherwise no file has changed and the lines are the
    four of a run without save. *)
Theorem X16_main_saves_when_named (E : TrainCompile.Env) (argv : list string)
    (w w1 : TrainCompile.World (TrainCompile.Bytes E)) :
  TrainCompile.main E argv w = (w1, TrainCompile.Done tt) ->
  exists config,
    TrainCompile.initialize E argv = TrainCompile.Done config /\
    TrainCompile.validate_config config = TrainCompile.Done tt /\
    let name := TrainCompile.compiled_trainstep_file config in
    if String.eqb name EmptyString
    then
      (forall n, TrainCompile.files w1 n = TrainCompile.files w n) /\
      TrainCompile.stdout w1
      = TrainCompile.stdout w
        ++ ["Starting train_compile.py..."; "Jitting and compiling train step...";
            "Jitting and compilation complete!";
            "Finished train_compile.py successfully!"]%string
    else
      exists compiled serialized,
        TrainCompile.serialize E compiled = TrainCompile.Done serialized /\
        (forall n, TrainCompile.files w1 n
                   = if String.eqb n name
                     then Some (TrainCompile.pickle E serialized)
                     else TrainCompile.files w n) /\
        TrainCompile.stdout w1
        = TrainCompile.stdout w
          ++ ["Starting train_compile.py..."; "Jitting and compiling train step...";
              "Jitting and compilation complete!"; "Saving compiled object...";
              "Successfully saved compiled object as " ++ name;
              "Finished train_compile.py successfully!"]%string.
Proof.
  intros H.
  unfold TrainCompile.main, TrainCompile.get_topology_mesh,
    TrainCompile.get_shaped_inputs, TrainCompile.jit_and_compile,
    TrainCompile.save_compiled, TrainCompile.bindr, TrainCompile.print,
    TrainCompile.call, TrainCompile.ret, TrainCompile.write_file in H.
  cbn beta iota in H.
  repeat (next_outcome H; try discriminate H).
  all: match goal with
       | Ei : TrainCompile.initialize _ _ = TrainCompile.Done ?c |- _ => exists c
       end.
  all: split; [reflexivity | ].
  all: split; [match goal with x : unit |- _ => destruct x end; assumption | ].
  all: cbn zeta.
  all: match goal with Eb : String.eqb _ _ = _ |- _ => rewrite Eb end.
  all: injection H as <-; cbn [TrainCompile.files TrainCompile.stdout].
  all: first
         [ split; [reflexivity | rewrite <- !app_assoc; reflexivity]
         | eexists; eexists; split; [eassumption | ];
           split; [reflexivity | rewrite <- !app_assoc; reflexivity] ].
Qed.

Lemma X16_main_saves_when_named_witness :
  exists config,
    TrainCompile.initialize TrainCompile.toy_env ["v5e-256"; "step.pickle"]%string
    = TrainCompile.Done config /\
    TrainCompile.validate_config config = TrainCompile.Done tt /\
    exists compiled serialized,
      TrainCompile.serialize TrainCompile.toy_env compiled
      = TrainCompile.Done serialized /\
      TrainCompile.files
        (fst (TrainCompile.main TrainCompile.toy_env ["v5e-256"; "step.pickle"]%string
                TrainCompile.empty_world)) "step.pickle"%string
      = Some (TrainCompile.pickle TrainCompile.toy_env serialized).
Proof.
  destruct (X16_main_saves_when_named TrainCompile.toy_env
              ["v5e-256"; "step.pickle"]%string TrainCompile.empty_world
              (fst (TrainCompile.main TrainCompile.toy_env
                      ["v5e-256"; "step.pickle"]%string TrainCompile.empty_world))
              eq_refl)
    as (config & Ei & Ev & H).
  exists config. split; [exact Ei | ]. split; [exact Ev | ].
  injection Ei as <-. cbn in H.
  destruct H as (compiled & serialized & Es & Hf & _).
  exists compiled, serialized. split; [exact Es | ].
  exact (Hf "step.pickle"%string).
Defined.



(** X18.  The decoder layer in a decode call, on a cache allocated for the
    heads and the head dimension of its configuration and with
    collaborators that respect the shape contracts: an input of shape
    (batch, 1, embed) goes through, the output has its shape, and the
    cache keeps its shape while the index advances; an input of another
    batch or length makes the layer fail with the cache shape error of the
    attention, unchanged. *)
Theorem X18_decoder_layer_decode_call {A : Type} {D : DType A} (m : Models A)
    (cfg : Config) (vars : CacheVars A) (rngs : Rngs) (inputs : Array A)
    (decoder_segment_ids decoder_positions : option (Array Z))
    (decoder_mask : option (Array A)) (deterministic : bool)
    (max_decode_length b len bx lx f : nat) (ci : Z) :
  LayerContracts m ->
  allocated vars b (cfg_num_heads cfg) (cfg_head_dim cfg) len ci ->
  shape inputs = [bx; lx; f] ->
  mask_fits b len decoder_mask ->
  cfg_mlp_activations cfg <> [] ->
  deterministic = true \/ Qle_bool (cfg_dropout_rate cfg) 0 = true
    \/ rngs "dropout"%string <> None ->
  (bx = b /\ lx = 1%nat ->
   exists o vars1,
     decoder_layer_call m cfg vars rngs inputs decoder_segment_ids decoder_positions
       decoder_mask deterministic true max_decode_length = Ok (o, vars1) /\
     shape (layer_output_of o) = [b; 1%nat; f] /\
     allocated vars1 b (cfg_num_heads cfg) (cfg_head_dim cfg) len (int32_add ci 1)) /\
  (bx <> b \/ lx <> 1%nat ->
   decoder_layer_call m cfg vars rngs inputs decoder_segment_ids decoder_positions
     decoder_mask deterministic true max_decode_length = Err CacheShapeError).
Proof.
  intros C Hal Sin Hm Hact Hrng.
  pose proof (layer_shapes m C) as CS.
  unfold decoder_layer_call, with_logical_constraint.
  match goal with
  | |- context [attention_call m ?self vars rngs ?x ?x ?ty ?sg ?ps ?mk None true ?dt] =>
      destruct (module_decode_call m self vars rngs x ty sg ps mk dt b len bx lx f ci
                  CS Hal) as (Hyes & Hno);
        [now rewrite (rms_norm_shape m C) | exact Hm | exact Hrng | ]
  end.
  split.
  - intros Hb. destruct (Hyes Hb) as (att & vars1 & Ea & Sa & Hal1).
    destruct Hb as (-> & ->).
    rewrite Ea. cbn [bind].
    destruct (binop_same_shape dadd inputs att [b; 1%nat; f] Sin Sa) as (hid & Eh & Sh).
    unfold add at 1. rewrite Eh. cbn [bind].
    match goal with
    | |- context [mlp_call m ?blk rngs ?x false deterministic] =>
        destruct (mlp_call_ok m blk rngs x false deterministic C) as (mo & Em & Sm);
          [rewrite (rms_norm_shape m C), Sin; discriminate | exact Hact | rewrite Em]
    end.
    cbn [bind]. rewrite (rms_norm_shape m C), Sin in Sm.
    destruct (binop_same_shape dadd mo hid [b; 1%nat; f] Sm Sh) as (lo & El & Sl).
    unfold add. rewrite El. cbn [bind].
    destruct (cfg_scan_layers cfg); eexists; eexists;
      (split; [reflexivity | ]); (split; [ | exact Hal1]);
      cbn [layer_output_of]; now rewrite (dropout_shape m C).
  - intros Hb. rewrite (Hno Hb). reflexivity.
Qed.

Lemma X18_decoder_layer_decode_call_witness :
  (1%nat = 1%nat /\ 1%nat = 1%nat ->
   exists o vars1,
     decoder_layer_call Toy.models Toy.cfg ToyDecode.cache Toy.no_rngs Toy.inputs
       None None None true true 2 = Ok (o, vars1) /\
     shape (layer_output_of o) = [1; 1; 1]%nat /\
     allocated vars1 1 (cfg_num_heads Toy.cfg) (cfg_head_dim Toy.cfg) 2 (int32_add 0 1)) /\
  (1%nat <> 1%nat \/ 1%nat <> 1%nat ->
   decoder_layer_call Toy.models Toy.cfg ToyDecode.cache Toy.no_rngs Toy.inputs
     None None None true true 2 = Err CacheShapeError).
Proof.
  apply (X18_decoder_layer_decode_call Toy.models Toy.cfg ToyDecode.cache Toy.no_rngs
           Toy.inputs None None None true 2 1 2 1 1 1 0).
  - exact toy_layer_contracts.
  - eexists. eexists. repeat split; reflexivity.
  - reflexivity.
  - exact I.
  - discriminate.
  - now left.
Defined.
